(** * Stock forecasting dashboard: a shallow embedding of [stock_forecasting.py]

    The program fetches a price table from a data provider (yfinance),
    cleans it with pandas, fits a Prophet model and renders one of two
    Plotly figures from a Dash callback.  The three libraries are outside the
    repository: their numeric and network behaviour is taken as an interface
    (type classes below), their documented structural behaviour (column
    selection, row dropping, the calendar of future dates) is written out. *)

From Stdlib Require Import ZArith List String Ascii Bool Lia.
From Stdlib Require Import Sorting.Sorted DecimalString.
Import ListNotations.

Set Implicit Arguments.

(* ------------------------------------------------------------------ *)
(** ** Exceptions *)

(** The Python exceptions the program can meet inside its [try] blocks. *)
Inductive exn : Type :=
| KeyError (key : string)
| ValueError (msg : string)
| TypeError (msg : string)
| OutOfBoundsDatetime (msg : string)
| ProviderError (msg : string).

Inductive result (A : Type) : Type :=
| Ok (a : A)
| Raise (e : exn).

Arguments Ok {A} a.
Arguments Raise {A} e.

Definition bind {A B : Type} (m : result A) (k : A -> result B) : result B :=
  match m with
  | Ok a => k a
  | Raise e => Raise e
  end.

Declare Scope py_scope.
Delimit Scope py_scope with py.
Notation "x <- m ;; k" := (bind m (fun x => k))
  (at level 61, m at next level, right associativity) : py_scope.
Open Scope py_scope.

(** [try: ... except Exception: return None] *)
Definition except_none {A : Type} (m : result (option A)) : option A :=
  match m with
  | Ok r => r
  | Raise _ => None
  end.

(* ------------------------------------------------------------------ *)
(** ** Strings *)

Open Scope string_scope.

(** [sep.join(parts)] *)
Fixpoint join (sep : string) (parts : list string) : string :=
  match parts with
  | [] => ""
  | [p] => p
  | p :: rest => p ++ sep ++ join sep rest
  end.

(** Strings are sequences of UTF-8 bytes.  The white space [str.strip()]
    removes is, in one byte, tab to carriage return, the separators 28..31
    and the space; in two bytes U+0085 and U+00A0; in three bytes U+1680,
    U+2000 to U+200A, U+2028, U+2029, U+202F, U+205F and U+3000. *)
Definition is_space (c : ascii) : bool :=
  let n := nat_of_ascii c in
  ((9 <=? n) && (n <=? 13) || (28 <=? n) && (n <=? 32))%nat.

Definition is_space2 (c1 c2 : ascii) : bool :=
  let n1 := nat_of_ascii c1 in
  let n2 := nat_of_ascii c2 in
  ((n1 =? 194) && ((n2 =? 133) || (n2 =? 160)))%nat.

Definition is_space3 (c1 c2 c3 : ascii) : bool :=
  let n1 := nat_of_ascii c1 in
  let n2 := nat_of_ascii c2 in
  let n3 := nat_of_ascii c3 in
  ((n1 =? 225) && (n2 =? 154) && (n3 =? 128)
   || (n1 =? 226) && (n2 =? 128)
      && ((128 <=? n3) && (n3 <=? 138)
          || (n3 =? 168) || (n3 =? 169) || (n3 =? 175))
   || (n1 =? 226) && (n2 =? 129) && (n3 =? 159)
   || (n1 =? 227) && (n2 =? 128) && (n3 =? 128))%nat.

Fixpoint lstrip (s : string) : string :=
  match s with
  | String c1 s1 =>
      if is_space c1 then lstrip s1
      else
        match s1 with
        | String c2 s2 =>
            if is_space2 c1 c2 then lstrip s2
            else
              match s2 with
              | String c3 s3 => if is_space3 c1 c2 c3 then lstrip s3 else s
              | EmptyString => s
              end
        | EmptyString => s
        end
  | EmptyString => EmptyString
  end.

Fixpoint rev_append (s acc : string) : string :=
  match s with
  | String c s' => rev_append s' (String c acc)
  | EmptyString => acc
  end.

Definition reversed (s : string) : string := rev_append s EmptyString.

(** [lstrip] on a reversed string, where the bytes of a character come last
    byte first. *)
Fixpoint lstrip_reversed (s : string) : string :=
  match s with
  | String c1 s1 =>
      if is_space c1 then lstrip_reversed s1
      else
        match s1 with
        | String c2 s2 =>
            if is_space2 c2 c1 then lstrip_reversed s2
            else
              match s2 with
              | String c3 s3 =>
                  if is_space3 c3 c2 c1 then lstrip_reversed s3 else s
              | EmptyString => s
              end
        | EmptyString => s
        end
  | EmptyString => EmptyString
  end.

Definition rstrip (s : string) : string :=
  reversed (lstrip_reversed (reversed s)).

Definition strip (s : string) : string := rstrip (lstrip s).

(** [needle in hay] on strings. *)
Fixpoint contains (needle hay : string) : bool :=
  prefix needle hay ||
  match hay with
  | String _ hay' => contains needle hay'
  | EmptyString => false
  end.

(** [x in names] on a list of labels. *)
Definition mem (x : string) (names : list string) : bool :=
  existsb (String.eqb x) names.

(** [str(n)] for an integer. *)
Definition str_int (n : Z) : string := NilZero.string_of_int (Z.to_int n).

(* ------------------------------------------------------------------ *)
(** ** pandas values *)

(** What pandas leaves to its parsers and to float64 arithmetic.  [number]
    stands for the numeric values that are not NaN; timestamps are
    nanoseconds since the epoch, as in [datetime64[ns]]. *)
Class Pandas : Type := {
  number : Type;
  of_int : Z -> number;
  (** the instant a number denotes for [to_datetime] (nanoseconds), if it
      is in range *)
  to_ns : number -> option Z;
  (** date parser; [None] when the text is not a date *)
  parse_datetime : string -> option Z;
  (** number parser; [None] when the text is not a number *)
  parse_numeric : string -> option number;
  (** whether [date_range] refuses a negative [periods] (recent releases
      do, older ones return an empty range) *)
  rejects_negative_periods : bool
}.

Section Frames.
Context `{Pandas}.

(** One cell of a table.  [CNull] is any missing value (NaN, NaT, None):
    the values [isna] answers true on. *)
Inductive cell : Type :=
| CTime (ns : Z)
| CNum (v : number)
| CStr (s : string)
| CNull.

Definition notna (c : cell) : bool :=
  match c with
  | CNull => false
  | _ => true
  end.

(** [pd.to_datetime(col, errors="coerce")], cell by cell. *)
Definition to_datetime (c : cell) : cell :=
  match c with
  | CTime t => CTime t
  | CNum v => match to_ns v with Some t => CTime t | None => CNull end
  | CStr s => match parse_datetime s with Some t => CTime t | None => CNull end
  | CNull => CNull
  end.

(** [pd.to_numeric(col, errors="coerce")], cell by cell; a timestamp is read
    as its integer nanosecond count. *)
Definition to_numeric (c : cell) : cell :=
  match c with
  | CTime t => CNum (of_int t)
  | CNum v => CNum v
  | CStr s => match parse_numeric s with Some v => CNum v | None => CNull end
  | CNull => CNull
  end.

(** A DataFrame with flat column labels: the row index and the columns in
    their order, each with its label.  Labels may repeat. *)
Record frame : Type := {
  index_name : option string;
  index : list cell;
  columns : list (string * list cell)
}.

(** What the provider returns: the column labels are plain ([Index]) or
    tuples ([MultiIndex]). *)
Inductive column_labels : Type :=
| Index (cols : list (string * list cell))
| MultiIndex (cols : list (list string * list cell)).

Record provider_frame : Type := {
  p_index_name : option string;
  p_index : list cell;
  p_columns : column_labels
}.

Definition names (df : frame) : list string := map fst (columns df).

(** [df.empty]: no row or no column. *)
Definition empty (df : frame) : bool :=
  match index df, columns df with
  | [], _ => true
  | _, [] => true
  | _, _ => false
  end.

Definition p_empty (raw : provider_frame) : bool :=
  match p_index raw, p_columns raw with
  | [], _ => true
  | _, Index [] => true
  | _, MultiIndex [] => true
  | _, _ => false
  end.

(** [if isinstance(df.columns, pd.MultiIndex): df.columns = ["_".join(col).strip() ...]] *)
Definition flatten_columns (raw : provider_frame) : frame :=
  {| index_name := p_index_name raw;
     index := p_index raw;
     columns :=
       match p_columns raw with
       | Index cols => cols
       | MultiIndex cols =>
           map (fun lc => (strip (join "_" (fst lc)), snd lc)) cols
       end |}.

(** [RangeIndex(n)] *)
Definition range_index (n : nat) : list cell :=
  map (fun i => CNum (of_int (Z.of_nat i))) (seq 0 n).

(** [df.reset_index(inplace=True)]: the index becomes the first column, under
    its name (["index"], or ["level_0"] when that is taken, if it has none);
    a label already present is refused. *)
Definition reset_index (df : frame) : result frame :=
  let name :=
    match index_name df with
    | Some n => n
    | None => if mem "index" (names df) then "level_0" else "index"
    end in
  if mem name (names df)
  then Raise (ValueError ("cannot insert " ++ name ++ ", already exists"))
  else Ok {| index_name := None;
             index := range_index (List.length (index df));
             columns := (name, index df) :: columns df |}.

(** [df.rename(columns={old: new})] *)
Definition rename (old new : string) (df : frame) : frame :=
  {| index_name := index_name df;
     index := index df;
     columns :=
       map (fun lc => (if String.eqb (fst lc) old then new else fst lc, snd lc))
           (columns df) |}.

(** [df[key]] read as a column: a missing label is a [KeyError]; a repeated
    label selects a table, which every consumer in this program rejects. *)
Definition getitem (df : frame) (key : string) : result (list cell) :=
  match filter (fun lc => String.eqb (fst lc) key) (columns df) with
  | [] => Raise (KeyError key)
  | [lc] => Ok (snd lc)
  | _ => Raise (TypeError "arg must be a list, tuple, 1-d array, or Series")
  end.

(** [df[key] = col]: replaces the column in place, or appends it. *)
Definition setitem (df : frame) (key : string) (col : list cell) : frame :=
  {| index_name := index_name df;
     index := index df;
     columns :=
       if mem key (names df)
       then map (fun lc => if String.eqb (fst lc) key then (key, col) else lc)
                (columns df)
       else columns df ++ [(key, col)] |}.

(** Keeps the entries of [l] whose mask bit is set. *)
Fixpoint select {A : Type} (mask : list bool) (l : list A) : list A :=
  match mask, l with
  | b :: mask', a :: l' => if b then a :: select mask' l' else select mask' l'
  | _, _ => []
  end.

Fixpoint and_masks (m1 m2 : list bool) : list bool :=
  match m1, m2 with
  | b1 :: m1', b2 :: m2' => (b1 && b2) :: and_masks m1' m2'
  | _, _ => []
  end.

(** [df.dropna(subset=[k1, k2])]: the rows present in both columns. *)
Definition dropna (k1 k2 : string) (df : frame) : result frame :=
  c1 <- getitem df k1 ;;
  c2 <- getitem df k2 ;;
  let mask := and_masks (map notna c1) (map notna c2) in
  Ok {| index_name := index_name df;
        index := select mask (index df);
        columns := map (fun lc => (fst lc, select mask (snd lc))) (columns df) |}.

End Frames.

(* ------------------------------------------------------------------ *)
(** ** Fetching and cleaning: [get_stock_data] *)

(** The data provider.  [download ticker period interval auto_adjust] is the
    answer of one [yf.download] call: a table, or an exception. *)
Class YFinance `{Pandas} : Type := {
  download : string -> string -> string -> bool -> result provider_frame
}.

Section Fetch.
Context `{YFinance}.

(** [possible_close = [c for c in df.columns if "Close" in c]] *)
Definition possible_close (df : frame) : list string :=
  filter (contains "Close") (names df).

(** The statements between the emptiness test and the final [dropna]: the
    labels flattened, the index turned into a column, the [Date] and [Close]
    columns resolved and coerced. *)
Definition coerce_columns (raw : provider_frame) : result frame :=
  (* Flatten MultiIndex columns if present *)
  let df := flatten_columns raw in
  df <- reset_index df ;;
  (* Ensure consistent column names *)
  let df :=
    if negb (mem "Date" (names df)) then
      if mem "Datetime" (names df)
      then rename "Datetime" "Date" df
      else setitem df "Date" (index df)
    else df in
  (* Convert and clean columns *)
  date <- getitem df "Date" ;;
  let df := setitem df "Date" (map to_datetime date) in
  let df :=
    if negb (mem "Close" (names df)) then
      match possible_close df with
      | c :: _ => rename c "Close" df
      | [] => df
      end
    else df in
  close <- getitem df "Close" ;;
  Ok (setitem df "Close" (map to_numeric close)).

(** The body of the [try] block.  [Ok None] is the explicit [return None]
    on an empty download. *)
Definition get_stock_data_try (ticker : string) : result (option frame) :=
  raw <- download ticker "5y" "1d" true ;;
  if p_empty raw then Ok None else
  df <- coerce_columns raw ;;
  df <- dropna "Date" "Close" df ;;
  Ok (Some df).

Definition get_stock_data (ticker : string) : option frame :=
  except_none (get_stock_data_try ticker).

End Fetch.

(* ------------------------------------------------------------------ *)
(** ** Timestamps and the calendar *)

Open Scope Z_scope.

(** One calendar day in nanoseconds: the step of frequency ['D']. *)
Definition day_ns : Z := 86400 * 1000000000.

(** [Timestamp.dayofweek]: Monday is 0; the epoch was a Thursday. *)
Definition dayofweek (t : Z) : Z := (t / day_ns + 3) mod 7.

(** A day on which exchanges trade, holidays apart: Monday to Friday. *)
Definition is_trading_day (t : Z) : bool := dayofweek t <? 5.

(** The next trading day strictly after the day of [t], at the same time of
    day. *)
Definition next_trading_day (t : Z) : Z :=
  if is_trading_day (t + day_ns) then t + day_ns
  else if is_trading_day (t + 2 * day_ns) then t + 2 * day_ns
  else t + 3 * day_ns.

(** The [n] trading days that follow [t]: what a forecast that advances one
    row per trading day would be dated. *)
Fixpoint trading_days_after (t : Z) (n : nat) : list Z :=
  match n with
  | O => []
  | S n' => next_trading_day t :: trading_days_after (next_trading_day t) n'
  end.

(** The [n] calendar days that follow [t]. *)
Definition calendar_days_after (t : Z) (n : nat) : list Z :=
  map (fun i => t + Z.of_nat i * day_ns) (seq 1 n).

(** The largest instant a timestamp holds: [Timestamp.max], the greatest
    64-bit integer count of nanoseconds (in the year 2262). *)
Definition Timestamp_max : Z := 2 ^ 63 - 1.

(** [n] dates one day apart, from [start] on. *)
Definition daily_dates (start : Z) (n : nat) : list Z :=
  map (fun i => start + Z.of_nat i * day_ns) (seq 0 n).

(** [pd.date_range(start=start, periods=n, freq='D')] for [n >= 0]: the
    range is refused when a date of it, after the start, cannot be held by a
    timestamp. *)
Definition date_range (start : Z) (n : nat) : result (list Z) :=
  if ((1 <? n)%nat && (Timestamp_max <? start + Z.of_nat (n - 1) * day_ns))%bool
  then Raise (OutOfBoundsDatetime "Cannot generate range")
  else Ok (daily_dates start n).

(** [l[:k]] *)
Definition slice_to {A : Type} (k : Z) (l : list A) : list A :=
  if 0 <=? k then firstn (Z.to_nat k) l
  else firstn (List.length l - Z.to_nat (- k)) l.

(** [Series.unique()]: first occurrences, in order of appearance. *)
Fixpoint unique (l : list Z) : list Z :=
  match l with
  | [] => []
  | t :: l' => t :: filter (fun u => negb (u =? t)) (unique l')
  end.

Fixpoint insert_sorted (t : Z) (l : list Z) : list Z :=
  match l with
  | [] => [t]
  | u :: l' => if t <=? u then t :: l else u :: insert_sorted t l'
  end.

(** [sort_values()] on timestamps. *)
Fixpoint sort_values (l : list Z) : list Z :=
  match l with
  | [] => []
  | t :: l' => insert_sorted t (sort_values l')
  end.

(** [Series.max()] of a non-empty column. *)
Definition maximum (t : Z) (l : list Z) : Z := fold_left Z.max l t.

Close Scope Z_scope.

(* ------------------------------------------------------------------ *)
(** ** Forecasting: [forecast_stock] *)

(** The numeric core of Prophet: the Stan fit of the trend and seasonality
    parameters, and the values predicted for one row.  [stan_fit] answers
    [None] when the optimisation raises. *)
Class Prophet `{Pandas} : Type := {
  params : Type;
  stan_fit : bool -> list (Z * number) -> option params;
  (** [yhat], [yhat_lower], [yhat_upper] of the row at a timestamp, among
      the rows asked for *)
  predict_values : params -> list Z -> Z -> number * number * number
}.

Section Forecast.
Context `{Prophet}.

(** A row of the table [predict] returns (the component columns [trend],
    [daily], ... are not read by this program). *)
Record forecast_row : Type := {
  ds : Z;
  yhat : number;
  yhat_lower : number;
  yhat_upper : number
}.

Definition forecast_frame : Type := list forecast_row.

(** A fitted model: the dates seen in training and the fitted parameters. *)
Record prophet_model : Type := {
  history_dates : list Z;
  theta : params
}.

Definition timestamps (col : list cell) : list Z :=
  flat_map (fun c => match c with CTime t => [t] | _ => [] end) col.

(** [setup_dataframe] on the training rows: [ds] must hold timestamps and
    [y] numbers. *)
Fixpoint observations (rows : list (cell * cell)) : result (list (Z * number)) :=
  match rows with
  | [] => Ok []
  | (CTime t, CNum v) :: rows' =>
      obs <- observations rows' ;; Ok ((t, v) :: obs)
  | (CNull, _) :: _ => Raise (ValueError "Found NaN in column ds.")
  | _ :: _ => Raise (TypeError "unsupported column type")
  end.

(** [Prophet(daily_seasonality=...).fit(df)] on the rows [(ds, y)] of [df]. *)
Definition fit (daily_seasonality : bool) (df : list (cell * cell))
  : result prophet_model :=
  let history := filter (fun r => notna (snd r)) df in
  if (List.length history <? 2)%nat
  then Raise (ValueError "Dataframe has less than 2 non-NaN rows.")
  else
    let dates := sort_values (unique (timestamps (map fst df))) in
    obs <- observations history ;;
    match stan_fit daily_seasonality obs with
    | Some th => Ok {| history_dates := dates; theta := th |}
    | None => Raise (ValueError "optimisation failed")
    end.

(** [model.make_future_dataframe(periods=periods)], with the defaults
    [freq='D'] and [include_history=True]: the training dates followed by
    [periods] dates, one calendar day apart, after the last of them. *)
Definition make_future_dataframe (model : prophet_model) (periods : Z)
  : result (list Z) :=
  match history_dates model with
  | [] => Raise (ValueError "Model has not been fit.")
  | t0 :: rest =>
      let last_date := maximum t0 rest in
      dates <-
        (if (periods + 1 <? 0)%Z
         then if rejects_negative_periods
              then Raise (ValueError "Number of periods must be non-negative")
              else Ok []
         else date_range last_date (Z.to_nat (periods + 1))) ;;
      let dates := filter (fun d => (last_date <? d)%Z) dates in
      let dates := slice_to periods dates in
      Ok (history_dates model ++ dates)%list
  end.

(** The rows [predict] computes for the dates [dates]. *)
Definition predicted_rows (model : prophet_model) (dates : list Z)
  : forecast_frame :=
  map (fun t =>
         let '(y, lo, hi) := predict_values (theta model) dates t in
         {| ds := t; yhat := y; yhat_lower := lo; yhat_upper := hi |})
      dates.

(** [model.predict(future)]: one row per date asked, in date order. *)
Definition predict (model : prophet_model) (future : list Z)
  : result forecast_frame :=
  match future with
  | [] => Raise (ValueError "Dataframe has no rows.")
  | _ => Ok (predicted_rows model (sort_values future))
  end.

Definition both_notna (r : cell * cell) : bool := notna (fst r) && notna (snd r).

(** The training table [model_df]: the first five statements of the [try]
    block, as rows [(ds, y)]. *)
Definition prepare_model_df (df : frame) : result (list (cell * cell)) :=
  (* df[["Date", "Close"]].rename(columns={"Date": "ds", "Close": "y"}) *)
  date <- getitem df "Date" ;;
  close <- getitem df "Close" ;;
  let model_df := combine date close in
  let model_df := filter both_notna model_df in
  let model_df := map (fun r => (to_datetime (fst r), snd r)) model_df in
  let model_df := map (fun r => (fst r, to_numeric (snd r))) model_df in
  let model_df := filter both_notna model_df in
  Ok model_df.

(** The body of the [try] block of [forecast_stock]. *)
Definition forecast_stock_try (df : frame) (periods : Z)
  : result (option forecast_frame) :=
  model_df <- prepare_model_df df ;;
  (* Prophet model *)
  model <- fit true model_df ;;
  future <- make_future_dataframe model periods ;;
  forecast <- predict model future ;;
  Ok (Some forecast).

Definition forecast_stock (df : frame) (periods : Z) : option forecast_frame :=
  except_none (forecast_stock_try df periods).

End Forecast.

(* ------------------------------------------------------------------ *)
(** ** The dashboard: layout constants and the callback [update_tab] *)

Definition stock_options : list (string * string) :=
  [ ("Apple (AAPL)", "AAPL");
    ("Tesla (TSLA)", "TSLA");
    ("Microsoft (MSFT)", "MSFT");
    ("Google (GOOG)", "GOOG");
    ("Reliance (RELIANCE.NS)", "RELIANCE.NS");
    ("TCS (TCS.NS)", "TCS.NS");
    ("Gold ETF India (GOLDBEES.NS)", "GOLDBEES.NS");
    ("Gold ETF India (NIPPGOLD.NS)", "NIPPGOLD.NS");
    ("Gold ETF US (GLD)", "GLD");
    ("Toyota (TM)", "TM") ].

Definition main_color : string := "#0057B7".
Definition accent_color : string := "#FFD700".
Definition background_color : string := "#F8FAFD".
Definition card_bg : string := "#FFFFFF".


(** The bounds of the [forecast-slider]. *)
Definition slider_min : Z := 7.
Definition slider_max : Z := 90.

Section Dashboard.
Context `{Pandas} `{!YFinance} `{!Prophet}.

Record Line : Type := {
  color : option string;
  width : option Z
}.

(** [go.Scatter(...)] with the attributes the program sets. *)
Record Scatter : Type := {
  x : list cell;
  y : list cell;
  mode : string;
  name : string;
  line : Line;
  fill : option string;
  fillcolor : option string
}.

Record Layout : Type := {
  title : string;
  xaxis_title : string;
  yaxis_title : string;
  template : string;
  paper_bgcolor : string;
  plot_bgcolor : string
}.

Record Figure : Type := {
  data : list Scatter;
  layout : Layout
}.

Inductive component : Type :=
| Div (children : string) (style : list (string * string))
| Graph (figure : Figure).

Definition no_data_message : string :=
  "❌ No data found for selected asset or data fetch failed.".

Definition forecast_failed_message : string :=
  "❌ Forecasting failed. Check data format.".

Definition message_style : list (string * string) :=
  [("color", main_color); ("fontWeight", "bold")].

(** [fig.add_trace(trace)] *)
Definition add_trace (fig : list Scatter) (trace : Scatter) : list Scatter :=
  (fig ++ [trace])%list.

(** [next((x['label'] for x in stock_options if x['value'] == ticker), ticker)] *)
Definition label_of (ticker : string) : string :=
  match find (fun o => String.eqb (snd o) ticker) stock_options with
  | Some o => fst o
  | None => ticker
  end.

(** The calls the callback makes to the two pipeline stages, in order. *)
Inductive call : Type :=
| Called_get_stock_data (ticker : string)
| Called_forecast_stock (df : frame) (periods : Z).

(** A computation together with the stage calls it made. *)
Definition traced (A : Type) : Type := (list call * A)%type.

Definition ret {A : Type} (a : A) : traced A := ([], a).

Definition tbind {A B : Type} (m : traced A) (k : A -> traced B) : traced B :=
  let (l1, a) := m in
  let (l2, b) := k a in
  ((l1 ++ l2)%list, b).

Notation "x <~ m ;; k" := (tbind m (fun x => k))
  (at level 61, m at next level, right associativity).

Definition call_get_stock_data (ticker : string) : traced (option frame) :=
  ([Called_get_stock_data ticker], get_stock_data ticker).

Definition call_forecast_stock (df : frame) (periods : Z)
  : traced (option forecast_frame) :=
  ([Called_forecast_stock df periods], forecast_stock df periods).

(** The [tab == 'tab1'] branch. *)
Definition historical_figure (label : string) (df : frame) : result Figure :=
  date <- getitem df "Date" ;;
  close <- getitem df "Close" ;;
  let fig := [] in
  let fig := add_trace fig
    {| x := date; y := close; mode := "lines"; name := "Close Price";
       line := {| color := Some main_color; width := None |};
       fill := None; fillcolor := None |} in
  Ok {| data := fig;
        layout := {| title := label ++ " - Historical Price";
                     xaxis_title := "Date"; yaxis_title := "Price";
                     template := "plotly_white";
                     paper_bgcolor := card_bg; plot_bgcolor := card_bg |} |}.

(** The [tab == 'tab2'] branch. *)
Definition forecast_figure (label : string) (forecast_days : Z) (df : frame)
    (forecast : forecast_frame) : result Figure :=
  date <- getitem df "Date" ;;
  close <- getitem df "Close" ;;
  let fig := [] in
  let fig := add_trace fig
    {| x := date; y := close; mode := "lines"; name := "Actual";
       line := {| color := Some main_color; width := None |};
       fill := None; fillcolor := None |} in
  let fig := add_trace fig
    {| x := map (fun r => CTime (ds r)) forecast;
       y := map (fun r => CNum (yhat r)) forecast;
       mode := "lines"; name := "Forecast";
       line := {| color := Some accent_color; width := None |};
       fill := None; fillcolor := None |} in
  let fig := add_trace fig
    {| x := map (fun r => CTime (ds r)) forecast;
       y := map (fun r => CNum (yhat_upper r)) forecast;
       mode := "lines"; name := "Confidence Interval";
       line := {| color := None; width := Some 0%Z |};
       fill := Some "tonexty";
       fillcolor := Some "rgba(255, 215, 0, 0.12)" |} in
  Ok {| data := fig;
        layout := {| title := label ++ " - " ++ str_int forecast_days
                                ++ "-Day Forecast (Prophet)";
                     xaxis_title := "Date"; yaxis_title := "Predicted Price";
                     template := "plotly_white";
                     paper_bgcolor := card_bg; plot_bgcolor := card_bg |} |}.

Definition forecast_empty (forecast : forecast_frame) : bool :=
  match forecast with
  | [] => true
  | _ => false
  end.

(** The callback.  Its value is what Dash receives: [Ok (Some c)] for a
    returned component, [Ok None] when the function falls off its end,
    [Raise e] when an exception leaves it. *)
Definition update_tab (ticker : string) (forecast_days : Z) (tab : string)
  : traced (result (option component)) :=
  df <~ call_get_stock_data ticker ;;
  match df with
  | Some df' =>
      if empty df'
      then ret (Ok (Some (Div no_data_message message_style)))
      else
        forecast <~ call_forecast_stock df' forecast_days ;;
        match forecast with
        | Some forecast' =>
            if forecast_empty forecast'
            then ret (Ok (Some (Div forecast_failed_message message_style)))
            else
              let label := label_of ticker in
              if String.eqb tab "tab1" then
                ret (fig <- historical_figure label df' ;;
                     Ok (Some (Graph fig)))
              else if String.eqb tab "tab2" then
                ret (fig <- forecast_figure label forecast_days df' forecast' ;;
                     Ok (Some (Graph fig)))
              else ret (Ok None)
        | None => ret (Ok (Some (Div forecast_failed_message message_style)))
        end
  | None => ret (Ok (Some (Div no_data_message message_style)))
  end.

End Dashboard.

(* ------------------------------------------------------------------ *)
(** ** A small instance of the three libraries

    Numbers are integers (prices in cents), text is never a date, a number
    is written in decimal; the provider answers with a handful of fixed
    tables; the model predicts the last price it saw, within one cent. *)

Module Sample.

Definition timestamp_min : Z := (- 2 ^ 63 + 1)%Z.
Definition timestamp_max : Z := (2 ^ 63 - 1)%Z.

Definition pandas : Pandas :=
  {| number := Z;
     of_int := fun n => n;
     to_ns := fun v =>
       if ((timestamp_min <=? v) && (v <=? timestamp_max))%Z
       then Some v else None;
     parse_datetime := fun _ => None;
     parse_numeric := fun s => option_map Z.of_int (NilZero.int_of_string s);
     rejects_negative_periods := true |}.

(** Midnight of 2024-01-01, a Monday, and the days after it. *)
Definition monday : Z := (19723 * day_ns)%Z.
Definition tuesday : Z := (monday + day_ns)%Z.
Definition wednesday : Z := (monday + 2 * day_ns)%Z.
Definition thursday : Z := (monday + 3 * day_ns)%Z.
Definition friday : Z := (monday + 4 * day_ns)%Z.
Definition saturday : Z := (monday + 5 * day_ns)%Z.

Definition at_time (t : Z) : @cell pandas := @CTime pandas t.
Definition cents (v : Z) : @cell pandas := @CNum pandas v.
Definition text (s : string) : @cell pandas := @CStr pandas s.

Definition week : list (@cell pandas) :=
  map at_time [monday; tuesday; wednesday; thursday; friday].

Definition closes : list (@cell pandas) :=
  map cents [18564; 18425; 18191; 18168; 18118]%Z.

Definition volumes : list (@cell pandas) :=
  map cents [82488; 58414; 71983; 62303; 59144]%Z.

(** One ticker per shape of answer: a week of prices under tuple labels,
    prices that are not numbers, rows out of order with a repeated date, a
    failed request, and an empty table for every other ticker. *)
Definition aapl_table : @provider_frame pandas :=
  {| p_index_name := Some "Date";
     p_index := week;
     p_columns :=
       MultiIndex [ (["Close"; "AAPL"], closes); (["Volume"; "AAPL"], volumes) ] |}.

Definition tsla_table : @provider_frame pandas :=
  {| p_index_name := Some "Date";
     p_index := map at_time [monday; tuesday];
     p_columns := Index [ ("Close", map text ["n/a"; "-"]) ] |}.

Definition gld_table : @provider_frame pandas :=
  {| p_index_name := Some "Date";
     p_index := map at_time [tuesday; monday; monday];
     p_columns := Index [ ("Close", map cents [18790; 18801; 18801]%Z) ] |}.

Definition empty_table : @provider_frame pandas :=
  {| p_index_name := Some "Date"; p_index := []; p_columns := Index [] |}.

Definition yfinance : @YFinance pandas :=
  {| download := fun ticker _ _ _ =>
       if String.eqb ticker "AAPL" then Ok aapl_table
       else if String.eqb ticker "TSLA" then Ok tsla_table
       else if String.eqb ticker "GLD" then Ok gld_table
       else if String.eqb ticker "TM"
            then Raise (ProviderError "connection reset by peer")
       else Ok empty_table |}.

Definition last_price (obs : list (Z * Z)) : option Z :=
  Some (snd (last obs (0%Z, 0%Z))).

Definition one_cent_band (th : Z) (_ : list Z) (_ : Z) : Z * Z * Z :=
  (th, th - 1, th + 1)%Z.

Definition prophet : @Prophet pandas :=
  @Build_Prophet pandas Z (fun _ => last_price) one_cent_band.

(** The cleaned table of the first ticker. *)
Definition history : @frame pandas :=
  {| index_name := None;
     index := range_index 5;
     columns :=
       [ ("Date", week); ("Close", closes); ("Volume_AAPL", volumes) ] |}.

(** The third ticker's table once its columns are coerced, before any row
    is dropped. *)
Definition gld_coerced : @frame pandas :=
  {| index_name := None;
     index := range_index 3;
     columns :=
       [ ("Date", map at_time [tuesday; monday; monday]);
         ("Close", map cents [18790; 18801; 18801]%Z) ] |}.

(** The first ticker's week as a typed series. *)
Definition week_ts : list Z := [monday; tuesday; wednesday; thursday; friday].
Definition week_prices : list Z := [18564; 18425; 18191; 18168; 18118]%Z.

(** The model fitted on that week. *)
Definition week_model : @prophet_model pandas prophet :=
  @Build_prophet_model pandas prophet week_ts 18118%Z.

(** The forecasts of that week for one day and for thirty. *)
Definition forecast_1 : @forecast_frame pandas :=
  @predicted_rows pandas prophet week_model (week_ts ++ [saturday])%list.

Definition forecast_30 : @forecast_frame pandas :=
  @predicted_rows pandas prophet week_model
    (week_ts ++ calendar_days_after friday 30)%list.

End Sample.

(* ------------------------------------------------------------------ *)
(** ** Vocabulary of the properties *)

Section Vocabulary.
Context `{Pandas} `{!YFinance} `{!Prophet}.

(** The table the controller tests after the fetch is absent or empty. *)
Definition no_usable_data (ticker : string) : Prop :=
  get_stock_data ticker = None \/
  exists df, get_stock_data ticker = Some df /\ empty df = true.




(** The table [df] holds the price series with timestamps [ts] and prices
    [vs]: timestamps strictly increasing, no value missing. *)
Definition price_series (df : frame) (ts : list Z) (vs : list number) : Prop :=
  getitem df "Date" = Ok (map CTime ts) /\
  getitem df "Close" = Ok (map CNum vs) /\
  List.length ts = List.length vs /\
  StronglySorted Z.lt ts.

(** The rows of a typed series, as table cells. *)
Definition typed_rows (obs : list (Z * number)) : list (cell * cell) :=
  map (fun tv => (CTime (fst tv), CNum (snd tv))) obs.

End Vocabulary.

(* ------------------------------------------------------------------ *)
(** ** Vocabulary of the further properties *)

(** The label the price is read from, given the labels of a table: "Close"
    when it is one of them, else the first label that contains "Close". *)
Definition price_label (labels : list string) : option string :=
  if mem "Close" labels then Some "Close"
  else hd_error (filter (contains "Close") labels).

Section FurtherVocabulary.
Context `{Pandas}.

(** The statements of [get_stock_data] under "Ensure consistent column
    names": where the [Date] column comes from. *)
Definition ensure_date (df : frame) : frame :=
  if negb (mem "Date" (names df)) then
    if mem "Datetime" (names df)
    then rename "Datetime" "Date" df
    else setitem df "Date" (index df)
  else df.

(** The statements under "Convert and clean columns", up to the coercion
    of [Close]. *)
Definition convert_columns (df : frame) : result frame :=
  date <- getitem df "Date" ;;
  let df := setitem df "Date" (map to_datetime date) in
  let df :=
    if negb (mem "Close" (names df)) then
      match possible_close df with
      | c :: _ => rename c "Close" df
      | [] => df
      end
    else df in
  close <- getitem df "Close" ;;
  Ok (setitem df "Close" (map to_numeric close)).



End FurtherVocabulary.

(* ------------------------------------------------------------------ *)
(** ** More tables for the sample instance

    A provider that answers with the less usual shapes: an unnamed index
    holding the dates as text, an index named like one of the columns, and a
    table without any closing price. *)

Module Shapes.
Import Sample.

Definition unnamed_table : @provider_frame pandas :=
  {| p_index_name := None;
     p_index := map text ["2024-01-01"; "2024-01-02"];
     p_columns := Index [ ("Close", map cents [18564; 18425]%Z) ] |}.

Definition clash_table : @provider_frame pandas :=
  {| p_index_name := Some "Date";
     p_index := map at_time [monday; tuesday];
     p_columns := Index [ ("Date", map at_time [monday; tuesday]);
                          ("Close", map cents [18564; 18425]%Z) ] |}.

Definition open_table : @provider_frame pandas :=
  {| p_index_name := Some "Date";
     p_index := map at_time [monday; tuesday];
     p_columns := Index [ ("Open", map cents [18500; 18400]%Z);
                          ("Volume", map cents [82488; 58414]%Z) ] |}.

Definition provider : @YFinance pandas :=
  {| download := fun ticker _ _ _ =>
       if String.eqb ticker "ROWS" then Ok unnamed_table
       else if String.eqb ticker "CLASH" then Ok clash_table
       else if String.eqb ticker "OPEN" then Ok open_table
       else Ok empty_table |}.

(** A cleaned table with a single day, and one without prices. *)
Definition single_day : @frame pandas :=
  {| index_name := None;
     index := range_index 1;
     columns := [ ("Date", map at_time [monday]);
                  ("Close", map cents [18564]%Z) ] |}.

Definition dates_only : @frame pandas :=
  {| index_name := None;
     index := range_index 2;
     columns := [ ("Date", map at_time [monday; tuesday]) ] |}.

(** The rows of the third sample ticker, out of order and with a repeated
    day, and the model fitted on them. *)
Definition gld_rows : list (@cell pandas * @cell pandas) :=
  combine (map at_time [tuesday; monday; monday])
          (map cents [18790; 18801; 18801]%Z).

Definition gld_model : @prophet_model pandas prophet :=
  @Build_prophet_model pandas prophet [monday; tuesday] 18801%Z.

End Shapes.

(* ------------------------------------------------------------------ *)
(** * Properties *)

(** ** Lists of timestamps *)

Section Timestamps.
Local Open Scope Z_scope.

Lemma day_ns_pos : 0 < day_ns.
Proof. reflexivity. Qed.

Lemma insert_sorted_le (t : Z) (l : list Z) :
  Forall (Z.le t) l -> insert_sorted t l = t :: l.
Proof.
  destruct l as [|u l]; simpl; [reflexivity|].
  intros Hall. inversion Hall as [|? ? Hle _]; subst.
  destruct (Z.leb_spec t u); [reflexivity | lia].
Qed.

Lemma sort_values_sorted (l : list Z) :
  StronglySorted Z.le l -> sort_values l = l.
Proof.
  induction 1 as [|t l _ IH Hall]; simpl; [reflexivity|].
  rewrite IH. now apply insert_sorted_le.
Qed.

Lemma lt_sorted_le (l : list Z) :
  StronglySorted Z.lt l -> StronglySorted Z.le l.
Proof.
  induction 1 as [|t l _ IH Hall]; constructor; [assumption|].
  eapply Forall_impl; [|exact Hall]. intros; lia.
Qed.

Lemma insert_sorted_In (t u : Z) (l : list Z) :
  In u (insert_sorted t l) <-> u = t \/ In u l.
Proof.
  induction l as [|v l IH]; simpl.
  - intuition.
  - destruct (t <=? v); simpl; rewrite ?IH; intuition.
Qed.

Lemma insert_sorted_strongly (t : Z) (l : list Z) :
  StronglySorted Z.le l -> StronglySorted Z.le (insert_sorted t l).
Proof.
  induction 1 as [|u l Hs IH Hall]; simpl.
  - repeat constructor.
  - destruct (Z.leb_spec t u).
    + constructor; [now constructor|].
      constructor; [assumption|].
      eapply Forall_impl; [|exact Hall]. intros; lia.
    + constructor; [assumption|].
      apply Forall_forall. intros w Hw.
      apply insert_sorted_In in Hw. destruct Hw as [->|Hw]; [lia|].
      rewrite Forall_forall in Hall. now apply Hall.
Qed.

Lemma sort_values_strongly (l : list Z) : StronglySorted Z.le (sort_values l).
Proof.
  induction l; simpl; [constructor | now apply insert_sorted_strongly].
Qed.

Lemma sort_values_idempotent (l : list Z) :
  sort_values (sort_values l) = sort_values l.
Proof. apply sort_values_sorted, sort_values_strongly. Qed.

Lemma insert_sorted_length (t : Z) (l : list Z) :
  List.length (insert_sorted t l) = S (List.length l).
Proof.
  induction l as [|u l IH]; simpl; [reflexivity|].
  destruct (t <=? u); simpl; congruence.
Qed.

Lemma sort_values_length (l : list Z) :
  List.length (sort_values l) = List.length l.
Proof.
  induction l; simpl; [reflexivity|].
  rewrite insert_sorted_length. congruence.
Qed.

Lemma sort_values_nonempty (l : list Z) : l <> [] -> sort_values l <> [].
Proof.
  intros Hl Hs. apply Hl. apply length_zero_iff_nil.
  rewrite <- sort_values_length, Hs. reflexivity.
Qed.

Lemma unique_strictly_sorted (l : list Z) :
  StronglySorted Z.lt l -> unique l = l.
Proof.
  induction 1 as [|t l _ IH Hall]; simpl; [reflexivity|].
  rewrite IH. f_equal.
  apply forallb_filter_id. apply forallb_forall. intros u Hu.
  rewrite Forall_forall in Hall. specialize (Hall u Hu).
  apply negb_true_iff, Z.eqb_neq. lia.
Qed.

Lemma unique_nonempty (l : list Z) : l <> [] -> unique l <> [].
Proof. destruct l; simpl; [congruence | discriminate]. Qed.

Lemma last_nonempty_default (u : Z) (l : list Z) (d d' : Z) :
  last (u :: l) d = last (u :: l) d'.
Proof.
  revert u. induction l as [|v l IH]; intros u; [reflexivity|].
  change (last (v :: l) d = last (v :: l) d'). apply IH.
Qed.

Lemma maximum_sorted (t : Z) (l : list Z) :
  StronglySorted Z.le (t :: l) -> maximum t l = last l t.
Proof.
  unfold maximum. revert t.
  induction l as [|u l IH]; intros t Hs; [reflexivity|].
  inversion Hs as [|? ? Hs' Hall]; subst.
  inversion Hall as [|? ? Hle _]; subst.
  cbn [fold_left]. rewrite Z.max_r by assumption.
  rewrite IH by assumption.
  destruct l as [|v l]; [reflexivity|].
  change (last (v :: l) u = last (v :: l) t). apply last_nonempty_default.
Qed.

Lemma calendar_days_after_gt (t : Z) (n : nat) :
  Forall (fun u => t < u) (calendar_days_after t n).
Proof.
  unfold calendar_days_after. apply Forall_forall. intros u Hu.
  apply in_map_iff in Hu. destruct Hu as [i [<- Hi]].
  apply in_seq in Hi. pose proof day_ns_pos. nia.
Qed.

Lemma calendar_days_after_sorted_from (t : Z) (k n : nat) :
  StronglySorted Z.lt (map (fun i => t + Z.of_nat i * day_ns) (seq k n)).
Proof.
  revert k. induction n as [|n IH]; intros k; simpl; constructor.
  - apply IH.
  - apply Forall_forall. intros u Hu.
    apply in_map_iff in Hu. destruct Hu as [i [<- Hi]].
    apply in_seq in Hi. pose proof day_ns_pos. nia.
Qed.

Lemma calendar_days_after_sorted (t : Z) (n : nat) :
  StronglySorted Z.lt (calendar_days_after t n).
Proof. apply calendar_days_after_sorted_from. Qed.

Lemma calendar_days_after_length (t : Z) (n : nat) :
  List.length (calendar_days_after t n) = n.
Proof. unfold calendar_days_after. now rewrite length_map, length_seq. Qed.

(** The dates [make_future_dataframe] appends for a horizon [h >= 0]. *)
Lemma future_dates_nonneg (last_date h : Z) :
  0 <= h ->
  slice_to h (filter (fun d => last_date <? d)
                     (daily_dates last_date (Z.to_nat (h + 1))))
  = calendar_days_after last_date (Z.to_nat h).
Proof.
  intros Hh.
  replace (Z.to_nat (h + 1)) with (S (Z.to_nat h)) by lia.
  unfold daily_dates. cbn [seq map filter].
  replace (last_date <? last_date + Z.of_nat 0 * day_ns) with false
    by (symmetry; apply Z.ltb_ge; simpl; lia).
  rewrite forallb_filter_id.
  - unfold slice_to, calendar_days_after. destruct (Z.leb_spec 0 h); [|lia].
    apply firstn_all2. rewrite length_map, length_seq. lia.
  - apply forallb_forall. intros u Hu.
    pose proof (calendar_days_after_gt last_date (Z.to_nat h)) as Hgt.
    rewrite Forall_forall in Hgt. apply Z.ltb_lt. now apply Hgt.
Qed.

(** A range of at most one date is never refused. *)
Lemma date_range_short (start : Z) (n : nat) :
  (n <= 1)%nat -> date_range start n = Ok (daily_dates start n).
Proof.
  intros Hn. unfold date_range.
  destruct (Nat.ltb_spec 1 n); [lia | reflexivity].
Qed.

(** A range is generated exactly when its last date is a timestamp. *)
Lemma date_range_in_bounds (start : Z) (n : nat) :
  start + Z.of_nat (n - 1) * day_ns <= Timestamp_max ->
  date_range start n = Ok (daily_dates start n).
Proof.
  intros Hmax. unfold date_range.
  destruct (Z.ltb_spec Timestamp_max (start + Z.of_nat (n - 1) * day_ns));
    [lia|].
  now rewrite andb_false_r.
Qed.

Lemma date_range_inv (start : Z) (n : nat) (dates : list Z) :
  date_range start n = Ok dates -> dates = daily_dates start n.
Proof.
  unfold date_range. destruct (_ && _)%bool; [discriminate|].
  now intros [= <-].
Qed.

End Timestamps.

(** ** Tables *)

Section FrameFacts.
Context `{Pandas}.

Lemma select_notna_l (c1 c2 : list cell) :
  Forall (fun c => notna c = true)
         (select (and_masks (map notna c1) (map notna c2)) c1).
Proof.
  revert c2. induction c1 as [|a c1 IH]; intros [|b c2]; simpl; try constructor.
  destruct (notna a) eqn:Ha; simpl; [|apply IH].
  destruct (notna b); [|apply IH].
  constructor; [assumption | apply IH].
Qed.

Lemma select_notna_r (c1 c2 : list cell) :
  Forall (fun c => notna c = true)
         (select (and_masks (map notna c1) (map notna c2)) c2).
Proof.
  revert c2. induction c1 as [|a c1 IH]; intros [|b c2]; simpl; try constructor.
  destruct (notna a); simpl; [|apply IH].
  destruct (notna b) eqn:Hb; [|apply IH].
  constructor; [assumption | apply IH].
Qed.

Lemma filter_label_map (g : list cell -> list cell) (key : string)
    (cols : list (string * list cell)) :
  filter (fun lc => String.eqb (fst lc) key)
         (map (fun lc => (fst lc, g (snd lc))) cols)
  = map (fun lc => (fst lc, g (snd lc)))
        (filter (fun lc => String.eqb (fst lc) key) cols).
Proof.
  induction cols as [|[l c] cols IH]; simpl; [reflexivity|].
  destruct (String.eqb l key); simpl; now rewrite IH.
Qed.

(** Reading a column of a table whose columns were all transformed by [g]. *)
Lemma getitem_map_columns (g : list cell -> list cell) (df : frame)
    (key : string) (idx : list cell) (iname : option string) (c : list cell) :
  getitem df key = Ok c ->
  getitem {| index_name := iname; index := idx;
             columns := map (fun lc => (fst lc, g (snd lc))) (columns df) |} key
  = Ok (g c).
Proof.
  unfold getitem. cbn [columns]. rewrite filter_label_map.
  destruct (filter _ (columns df)) as [|lc [|lc' rest]]; try discriminate.
  intros [= <-]. reflexivity.
Qed.

Lemma dropna_inv (k1 k2 : string) (df df' : frame) :
  dropna k1 k2 df = Ok df' ->
  exists c1 c2,
    getitem df k1 = Ok c1 /\ getitem df k2 = Ok c2 /\
    let mask := and_masks (map notna c1) (map notna c2) in
    getitem df' k1 = Ok (select mask c1) /\
    getitem df' k2 = Ok (select mask c2) /\
    index df' = select mask (index df).
Proof.
  unfold dropna, bind.
  destruct (getitem df k1) as [c1|] eqn:H1; [|discriminate].
  destruct (getitem df k2) as [c2|] eqn:H2; [|discriminate].
  intros [= <-]. exists c1, c2. cbn zeta.
  repeat split.
  - now apply getitem_map_columns.
  - now apply getitem_map_columns.
Qed.

Lemma dropna_ok (k1 k2 : string) (df : frame) (c1 c2 : list cell) :
  getitem df k1 = Ok c1 -> getitem df k2 = Ok c2 ->
  exists df', dropna k1 k2 df = Ok df'.
Proof.
  intros H1 H2. unfold dropna, bind. rewrite H1, H2. eauto.
Qed.

End FrameFacts.

(** ** The fetch stage *)

Section FetchFacts.
Context `{Pandas} `{!YFinance}.

Lemma getitem_ok_mem (df : frame) (key : string) (c : list cell) :
  getitem df key = Ok c -> mem key (names df) = true.
Proof.
  unfold getitem, mem, names.
  induction (columns df) as [|[l x] cols IH]; simpl; [discriminate|].
  rewrite (String.eqb_sym key l).
  destruct (String.eqb l key); simpl; [reflexivity | exact IH].
Qed.

Lemma select_fst_filter (c1 c2 : list cell) :
  select (and_masks (map notna c1) (map notna c2)) c1
  = map fst (filter both_notna (combine c1 c2)).
Proof.
  revert c2. induction c1 as [|a c1 IH]; intros [|b c2]; simpl; try reflexivity.
  unfold both_notna at 1. cbn [fst snd].
  destruct (notna a), (notna b); simpl; try apply IH.
  f_equal. apply IH.
Qed.

Lemma select_snd_filter (c1 c2 : list cell) :
  select (and_masks (map notna c1) (map notna c2)) c2
  = map snd (filter both_notna (combine c1 c2)).
Proof.
  revert c2. induction c1 as [|a c1 IH]; intros [|b c2]; simpl; try reflexivity.
  unfold both_notna at 1. cbn [fst snd].
  destruct (notna a), (notna b); simpl; try apply IH.
  f_equal. apply IH.
Qed.

(** What a successful fetch went through. *)
Lemma get_stock_data_inv (ticker : string) (df : frame) :
  get_stock_data ticker = Some df ->
  exists raw pre,
    download ticker "5y" "1d" true = Ok raw /\
    p_empty raw = false /\
    coerce_columns raw = Ok pre /\
    dropna "Date" "Close" pre = Ok df.
Proof.
  unfold get_stock_data, get_stock_data_try, except_none, bind.
  destruct (download ticker "5y" "1d" true) as [raw|] eqn:Hdl; [|discriminate].
  destruct (p_empty raw) eqn:He; [discriminate|].
  destruct (coerce_columns raw) as [pre|] eqn:Hpre; [|discriminate].
  destruct (dropna "Date" "Close" pre) as [df'|] eqn:Hd; [|discriminate].
  intros [= <-]. exists raw, pre. repeat split; assumption || reflexivity.
Qed.

(** The columns the later stages read are there. *)
Lemma get_stock_data_columns (ticker : string) (df : frame) :
  get_stock_data ticker = Some df ->
  exists date close,
    getitem df "Date" = Ok date /\ getitem df "Close" = Ok close.
Proof.
  intros Hget. apply get_stock_data_inv in Hget.
  destruct Hget as (raw & pre & _ & _ & _ & Hdrop).
  apply dropna_inv in Hdrop.
  destruct Hdrop as (c1 & c2 & _ & _ & H1 & H2 & _). eauto.
Qed.

(** C10: a table returned by [get_stock_data] has a "Date" and a "Close"
    column, and no cell of either column is missing.  (Such a table may have
    no row at all.) *)
Theorem get_stock_data_date_close_present (ticker : string) (df : frame) :
  get_stock_data ticker = Some df ->
  mem "Date" (names df) = true /\
  mem "Close" (names df) = true /\
  exists date close,
    getitem df "Date" = Ok date /\
    getitem df "Close" = Ok close /\
    Forall (fun c => c <> CNull) date /\
    Forall (fun c => c <> CNull) close.
Proof.
  intros Hget. apply get_stock_data_inv in Hget.
  destruct Hget as (raw & pre & _ & _ & _ & Hdrop).
  apply dropna_inv in Hdrop.
  destruct Hdrop as (c1 & c2 & _ & _ & H1 & H2 & _).
  assert (Hpresent : forall l : list cell,
             Forall (fun c => notna c = true) l ->
             Forall (fun c => c <> CNull) l).
  { intros l. apply Forall_impl. intros c Hc ->. discriminate. }
  split; [eapply getitem_ok_mem; eassumption|].
  split; [eapply getitem_ok_mem; eassumption|].
  eexists; eexists. repeat split; try eassumption.
  - apply Hpresent, select_notna_l.
  - apply Hpresent, select_notna_r.
Qed.

(** C6: a failed request and an empty answer both come back as [None], and
    so does any exception raised inside the function: none leaves it. *)
Theorem get_stock_data_contains_failures (ticker : string) :
  (forall e, download ticker "5y" "1d" true = Raise e ->
             get_stock_data ticker = None) /\
  (forall raw, download ticker "5y" "1d" true = Ok raw ->
               p_empty raw = true ->
               get_stock_data ticker = None) /\
  (forall e, get_stock_data_try ticker = Raise e ->
             get_stock_data ticker = None).
Proof.
  unfold get_stock_data, get_stock_data_try, except_none, bind.
  repeat split.
  - intros e ->. reflexivity.
  - intros raw -> ->. reflexivity.
  - intros e ->. reflexivity.
Qed.

End FetchFacts.

(** ** The forecast stage *)

Section ForecastFacts.
Context `{Pandas} `{!Prophet}.

Lemma combine_typed (ts : list Z) (vs : list number) :
  combine (map CTime ts) (map CNum vs) = typed_rows (combine ts vs).
Proof.
  revert vs. induction ts as [|t ts IH]; intros [|v vs]; simpl; try reflexivity.
  f_equal. apply IH.
Qed.

Lemma filter_typed_rows (obs : list (Z * number)) :
  filter both_notna (typed_rows obs) = typed_rows obs.
Proof.
  induction obs as [|[t v] obs IH]; simpl; [reflexivity|]. now rewrite IH.
Qed.

Lemma filter_y_typed_rows (obs : list (Z * number)) :
  filter (fun r => notna (snd r)) (typed_rows obs) = typed_rows obs.
Proof.
  induction obs as [|[t v] obs IH]; simpl; [reflexivity|]. now rewrite IH.
Qed.

Lemma coerce_typed_rows (obs : list (Z * number)) :
  map (fun r => (fst r, to_numeric (snd r)))
      (map (fun r => (to_datetime (fst r), snd r)) (typed_rows obs))
  = typed_rows obs.
Proof.
  induction obs as [|[t v] obs IH]; simpl; [reflexivity|]. now rewrite IH.
Qed.

Lemma observations_typed_rows (obs : list (Z * number)) :
  observations (typed_rows obs) = Ok obs.
Proof.
  induction obs as [|[t v] obs IH]; simpl; [reflexivity|]. now rewrite IH.
Qed.

Lemma timestamps_typed_rows (obs : list (Z * number)) :
  timestamps (map fst (typed_rows obs)) = map fst obs.
Proof.
  induction obs as [|[t v] obs IH]; simpl; [reflexivity|]. now rewrite IH.
Qed.

Lemma map_fst_combine (ts : list Z) (vs : list number) :
  List.length ts = List.length vs -> map fst (combine ts vs) = ts.
Proof.
  revert vs. induction ts as [|t ts IH]; intros [|v vs]; simpl;
    try reflexivity; try discriminate.
  intros [= Hlen]. f_equal. now apply IH.
Qed.

(** The training table of a clean series is the series itself. *)
Lemma prepare_model_df_series (df : frame) (ts : list Z) (vs : list number) :
  price_series df ts vs ->
  prepare_model_df df = Ok (typed_rows (combine ts vs)).
Proof.
  intros (Hdate & Hclose & _ & _).
  unfold prepare_model_df, bind. rewrite Hdate, Hclose.
  rewrite combine_typed, filter_typed_rows, coerce_typed_rows.
  now rewrite filter_typed_rows.
Qed.

(** A row [observations] accepts carries a timestamp. *)
Lemma observations_timestamps (rows : list (cell * cell))
    (obs : list (Z * number)) :
  observations rows = Ok obs -> map fst rows = map CTime (map fst obs).
Proof.
  revert obs. induction rows as [|[d c] rows IH]; intros obs; simpl.
  - intros [= <-]. reflexivity.
  - destruct d; try discriminate. destruct c; try discriminate.
    unfold bind. destruct (observations rows) as [obs'|]; [|discriminate].
    intros [= <-]. simpl. f_equal. now apply IH.
Qed.

Lemma timestamps_In (t : Z) (col : list cell) :
  In (CTime t) col -> In t (timestamps col).
Proof.
  unfold timestamps. intros Hin. apply in_flat_map.
  exists (CTime t). split; [assumption | now left].
Qed.

(** What a successful fit recorded. *)
Lemma fit_inv (b : bool) (rows : list (cell * cell)) (model : prophet_model) :
  fit b rows = Ok model ->
  history_dates model = sort_values (unique (timestamps (map fst rows))) /\
  history_dates model <> [] /\
  (2 <= List.length (filter (fun r => notna (snd r)) rows))%nat.
Proof.
  unfold fit, bind.
  destruct (Nat.ltb_spec (List.length (filter (fun r => notna (snd r)) rows)) 2)
    as [|Hlen]; [discriminate|].
  destruct (observations _) as [obs|] eqn:Hobs; [|discriminate].
  destruct (stan_fit b obs) as [th|]; [|discriminate].
  intros [= <-]. cbn [history_dates]. repeat split; try assumption.
  apply sort_values_nonempty, unique_nonempty.
  apply observations_timestamps in Hobs.
  destruct (filter _ rows) as [|[d c] history] eqn:Hf; [simpl in Hlen; lia|].
  destruct obs as [|[t v] obs]; [discriminate|].
  injection Hobs as -> _.
  assert (Hin : In (CTime t, c) rows).
  { eapply proj1. apply filter_In. rewrite Hf. now left. }
  intros Hnil.
  assert (Ht : In t (timestamps (map fst rows))).
  { apply timestamps_In. change (CTime t) with (fst (CTime t, c)).
    now apply in_map. }
  rewrite Hnil in Ht. destruct Ht.
Qed.

Lemma map_ds_predicted_rows (model : prophet_model) (dates : list Z) :
  map ds (predicted_rows model dates) = dates.
Proof.
  unfold predicted_rows. rewrite map_map.
  rewrite <- (map_id dates) at 2. apply map_ext. intros t.
  destruct (predict_values (theta model) dates t) as [[y lo] hi]. reflexivity.
Qed.

Lemma predicted_rows_nonempty (model : prophet_model) (dates : list Z) :
  dates <> [] -> predicted_rows model dates <> [].
Proof.
  intros Hd Hp. apply Hd. rewrite <- (map_ds_predicted_rows model dates).
  now rewrite Hp.
Qed.

Lemma predict_inv (model : prophet_model) (future : list Z)
    (fc : forecast_frame) :
  predict model future = Ok fc ->
  future <> [] /\ fc = predicted_rows model (sort_values future).
Proof.
  unfold predict. destruct future; [discriminate|].
  intros [= <-]. split; [discriminate | reflexivity].
Qed.

(** The rows of a returned forecast are the library's, as [predict] computed
    them: the function adds nothing to them and checks nothing in them. *)
Lemma forecast_stock_rows (df : frame) (periods : Z) (fc : forecast_frame) :
  forecast_stock df periods = Some fc ->
  exists model dates, fc = predicted_rows model dates.
Proof.
  unfold forecast_stock, forecast_stock_try, except_none, bind.
  destruct (prepare_model_df df) as [rows|]; [|discriminate].
  destruct (fit true rows) as [model|]; [|discriminate].
  destruct (make_future_dataframe model periods) as [future|]; [|discriminate].
  destruct (predict model future) as [fc'|] eqn:Hp; [|discriminate].
  intros [= <-]. apply predict_inv in Hp. destruct Hp as [_ ->]. eauto.
Qed.

(** A returned forecast has rows. *)
Lemma forecast_stock_nonempty (df : frame) (periods : Z) (fc : forecast_frame) :
  forecast_stock df periods = Some fc -> forecast_empty fc = false.
Proof.
  unfold forecast_stock, forecast_stock_try, except_none, bind.
  destruct (prepare_model_df df) as [rows|]; [|discriminate].
  destruct (fit true rows) as [model|]; [|discriminate].
  destruct (make_future_dataframe model periods) as [future|]; [|discriminate].
  destruct (predict model future) as [fc'|] eqn:Hp; [|discriminate].
  intros [= <-]. apply predict_inv in Hp. destruct Hp as [Hne ->].
  pose proof (predicted_rows_nonempty model (sort_values_nonempty Hne)) as Hrows.
  destruct (predicted_rows model (sort_values future)); [congruence | reflexivity].
Qed.

(** With a horizon of zero or less no date is appended. *)
Lemma make_future_dataframe_nonpositive (model : prophet_model) (h : Z) :
  (h <= 0)%Z -> history_dates model <> [] ->
  make_future_dataframe model h =
    if ((h + 1 <? 0)%Z && rejects_negative_periods)%bool
    then Raise (ValueError "Number of periods must be non-negative")
    else Ok (history_dates model).
Proof.
  intros Hh Hne. unfold make_future_dataframe, bind.
  destruct (history_dates model) as [|t0 rest]; [congruence|].
  destruct (Z.ltb_spec (h + 1) 0) as [Hneg|Hpos]; simpl.
  - destruct rejects_negative_periods; [reflexivity|].
    simpl. unfold slice_to.
    destruct (0 <=? h)%Z; simpl; now rewrite ?firstn_nil, app_nil_r.
  - rewrite date_range_short by lia. cbn [bind].
    assert (Hcases : h = 0%Z \/ h = (-1)%Z) by lia.
    destruct Hcases as [-> | ->]; simpl.
    + rewrite Z.add_0_r, Z.ltb_irrefl. simpl. now rewrite app_nil_r.
    + now rewrite app_nil_r.
Qed.

Lemma Forall_last (P : Z -> Prop) (l : list Z) (d : Z) :
  Forall P l -> l <> [] -> P (last l d).
Proof.
  induction 1 as [|u l Hu Hall IH]; intros Hne; [congruence|].
  destruct l as [|v l]; [exact Hu|].
  change (P (last (v :: l) d)). apply IH. discriminate.
Qed.

Lemma sorted_le_last (t : Z) (l : list Z) (d : Z) :
  StronglySorted Z.le l -> In t l -> (t <= last l d)%Z.
Proof.
  induction 1 as [|u l Hs IH Hall]; intros Hin; [destruct Hin|].
  destruct l as [|v l].
  - destruct Hin as [<-|[]]. simpl. lia.
  - change (last (u :: v :: l) d) with (last (v :: l) d).
    destruct Hin as [<-|Hin]; [|now apply IH].
    apply (@Forall_last (Z.le u) (v :: l) d Hall). discriminate.
Qed.

Lemma sorted_app (l1 l2 : list Z) :
  StronglySorted Z.le l1 -> StronglySorted Z.le l2 ->
  (forall a b, In a l1 -> In b l2 -> (a <= b)%Z) ->
  StronglySorted Z.le (l1 ++ l2).
Proof.
  induction 1 as [|u l1 Hs IH Hall]; intros H2 Hcross; simpl; [assumption|].
  constructor.
  - apply IH; [assumption|]. intros a b Ha Hb. apply Hcross; [now right | assumption].
  - apply Forall_app. split; [assumption|].
    apply Forall_forall. intros b Hb. apply Hcross; [now left | assumption].
Qed.

(** C2, as the code has it: [forecast_stock] does not test the horizon.
    On a table Prophet can fit, a horizon of zero or less gives the forecast
    over the training dates alone, one row per date and none after the last;
    the only horizons turned into [None] are those below -1, and only when
    pandas refuses a negative number of periods. *)
Theorem forecast_stock_nonpositive_horizon
    (df : frame) (h : Z) (rows : list (cell * cell)) (model : prophet_model) :
  (h <= 0)%Z ->
  prepare_model_df df = Ok rows ->
  fit true rows = Ok model ->
  let in_sample := predicted_rows model (history_dates model) in
  forecast_stock df h =
    (if ((h + 1 <? 0)%Z && rejects_negative_periods)%bool
     then None else Some in_sample) /\
  in_sample <> [] /\
  map ds in_sample = history_dates model.
Proof.
  intros Hh Hrows Hfit in_sample.
  pose proof (fit_inv _ _ Hfit) as (Hdates & Hne & _).
  repeat split.
  - unfold forecast_stock, forecast_stock_try, except_none, bind.
    rewrite Hrows, Hfit, (make_future_dataframe_nonpositive _ Hh Hne).
    destruct ((h + 1 <? 0)%Z && rejects_negative_periods)%bool; [reflexivity|].
    assert (Hpred : forall l, l <> [] -> sort_values l = l ->
                      predict model l = Ok (predicted_rows model l)).
    { intros l Hl Hs. unfold predict. destruct l; [congruence|]. now rewrite Hs. }
    rewrite Hpred; [reflexivity | assumption |].
    rewrite Hdates. apply sort_values_idempotent.
  - now apply predicted_rows_nonempty.
  - apply map_ds_predicted_rows.
Qed.

(** C4, as the code has it: on a clean series of length N and a horizon
    h >= 1 on which forecasting succeeds, the forecast has N + h rows, its
    first N timestamps are those of the series, and its last h timestamps
    are the h calendar days after the last of them (one per day, weekends
    included): strictly increasing and all later than the series. *)
Theorem forecast_stock_extends_by_calendar_days
    (df : frame) (ts : list Z) (vs : list number) (h : Z)
    (fc : forecast_frame) :
  price_series df ts vs ->
  (1 <= h)%Z ->
  forecast_stock df h = Some fc ->
  let n := List.length ts in
  let added := skipn n (map ds fc) in
  List.length fc = (n + Z.to_nat h)%nat /\
  firstn n (map ds fc) = ts /\
  added = calendar_days_after (last ts 0%Z) (Z.to_nat h) /\
  StronglySorted Z.lt added /\
  Forall (fun t => (last ts 0 < t)%Z) added.
Proof.
  intros Hseries Hh Hfc n added.
  pose proof (prepare_model_df_series Hseries) as Hrows.
  destruct Hseries as (_ & _ & Hlen & Hsorted).
  assert (Hdates : map ds fc
                   = (ts ++ calendar_days_after (last ts 0%Z) (Z.to_nat h))%list).
  { revert Hfc.
    unfold forecast_stock, forecast_stock_try, except_none, bind.
    rewrite Hrows.
    destruct (fit true _) as [model|] eqn:Hfit; [|discriminate].
    pose proof (fit_inv _ _ Hfit) as (Hhd & Hne & _).
    rewrite timestamps_typed_rows, (map_fst_combine _ _ Hlen) in Hhd.
    rewrite (unique_strictly_sorted Hsorted) in Hhd.
    rewrite (sort_values_sorted (lt_sorted_le Hsorted)) in Hhd.
    unfold make_future_dataframe. rewrite Hhd.
    destruct ts as [|t0 rest] eqn:Hts; [congruence|].
    rewrite <- Hts in *.
    destruct (Z.ltb_spec (h + 1) 0); [lia|].
    destruct (date_range (maximum t0 rest) (Z.to_nat (h + 1)))
      as [range|] eqn:Hrange; [|discriminate].
    apply date_range_inv in Hrange. subst range.
    cbn [bind].
    rewrite future_dates_nonneg by lia.
    assert (Hlast : maximum t0 rest = last ts 0%Z).
    { rewrite maximum_sorted by (rewrite <- Hts; now apply lt_sorted_le).
      rewrite Hts. destruct rest as [|u rest']; [reflexivity|].
      change (last (t0 :: u :: rest') 0%Z) with (last (u :: rest') 0%Z).
      apply last_nonempty_default. }
    rewrite Hlast.
    destruct (predict model _) as [fc'|] eqn:Hp; [|discriminate].
    intros [= <-]. apply predict_inv in Hp. destruct Hp as [_ ->].
    rewrite map_ds_predicted_rows.
    apply sort_values_sorted. apply sorted_app.
    - now apply lt_sorted_le.
    - apply lt_sorted_le, calendar_days_after_sorted.
    - intros a b Ha Hb.
      pose proof (@sorted_le_last a ts 0%Z (lt_sorted_le Hsorted) Ha) as Hle.
      pose proof (calendar_days_after_gt (last ts 0%Z) (Z.to_nat h)) as Hgt.
      rewrite Forall_forall in Hgt. specialize (Hgt b Hb). lia. }
  assert (Hfirst : firstn n (map ds fc) = ts).
  { rewrite Hdates. subst n. rewrite firstn_app, firstn_all, Nat.sub_diag.
    simpl. apply app_nil_r. }
  assert (Hadded : added = calendar_days_after (last ts 0%Z) (Z.to_nat h)).
  { subst added n. rewrite Hdates, skipn_app, skipn_all, Nat.sub_diag.
    reflexivity. }
  repeat split.
  - rewrite <- (length_map ds), Hdates, length_app, calendar_days_after_length.
    reflexivity.
  - exact Hfirst.
  - exact Hadded.
  - rewrite Hadded. apply calendar_days_after_sorted.
  - rewrite Hadded. apply calendar_days_after_gt.
Qed.

End ForecastFacts.

(** ** The callback *)

Section DashboardFacts.
Context `{Pandas} `{!YFinance} `{!Prophet}.

(** The stage calls of one trigger, whatever the tab. *)
Lemma update_tab_calls (ticker : string) (forecast_days : Z) (tab : string) :
  fst (update_tab ticker forecast_days tab) =
    match get_stock_data ticker with
    | Some df =>
        if empty df then [Called_get_stock_data ticker]
        else [Called_get_stock_data ticker;
              Called_forecast_stock df forecast_days]
    | None => [Called_get_stock_data ticker]
    end.
Proof.
  unfold update_tab, call_get_stock_data, call_forecast_stock, tbind, ret.
  destruct (get_stock_data ticker) as [df|]; [|reflexivity].
  destruct (empty df); [reflexivity|].
  destruct (forecast_stock df forecast_days) as [fc|]; [|reflexivity].
  destruct (forecast_empty fc); [reflexivity|].
  destruct (String.eqb tab "tab1"); [reflexivity|].
  destruct (String.eqb tab "tab2"); reflexivity.
Qed.

(** What the callback returns once both stages have succeeded. *)
Lemma update_tab_success (ticker : string) (forecast_days : Z) (tab : string)
    (df : frame) (fc : forecast_frame) :
  get_stock_data ticker = Some df ->
  empty df = false ->
  forecast_stock df forecast_days = Some fc ->
  snd (update_tab ticker forecast_days tab) =
    if String.eqb tab "tab1" then
      (fig <- historical_figure (label_of ticker) df ;; Ok (Some (Graph fig)))
    else if String.eqb tab "tab2" then
      (fig <- forecast_figure (label_of ticker) forecast_days df fc ;;
       Ok (Some (Graph fig)))
    else Ok None.
Proof.
  intros Hget Hne Hfc.
  unfold update_tab, call_get_stock_data, call_forecast_stock, tbind, ret.
  rewrite Hget, Hne, Hfc, (forecast_stock_nonempty _ _ Hfc).
  destruct (String.eqb tab "tab1"); [reflexivity|].
  destruct (String.eqb tab "tab2"); reflexivity.
Qed.

(** C1: when the fetched table is absent or empty the callback answers with
    the "no data" message, not the "forecast failed" one, and the forecast
    stage is not called. *)
Theorem update_tab_no_data (ticker : string) (forecast_days : Z) (tab : string) :
  no_usable_data ticker ->
  snd (update_tab ticker forecast_days tab)
    = Ok (Some (Div no_data_message message_style)) /\
  snd (update_tab ticker forecast_days tab)
    <> Ok (Some (Div forecast_failed_message message_style)) /\
  forall df periods,
    ~ In (Called_forecast_stock df periods)
         (fst (update_tab ticker forecast_days tab)).
Proof.
  intros Hno.
  assert (Hrun : update_tab ticker forecast_days tab
                 = ([Called_get_stock_data ticker],
                    Ok (Some (Div no_data_message message_style)))).
  { unfold update_tab, call_get_stock_data, tbind, ret.
    destruct Hno as [-> | [df [-> ->]]]; reflexivity. }
  rewrite Hrun. cbn [fst snd]. repeat split.
  - discriminate.
  - intros df periods [Hin | []]. discriminate.
Qed.

(** With any other tab value the function falls off its end. *)
Lemma update_tab_other_tab (ticker : string) (forecast_days : Z) (tab : string)
    (df : frame) (fc : forecast_frame) :
  get_stock_data ticker = Some df ->
  empty df = false ->
  forecast_stock df forecast_days = Some fc ->
  String.eqb tab "tab1" = false ->
  String.eqb tab "tab2" = false ->
  snd (update_tab ticker forecast_days tab) = Ok None.
Proof.
  intros Hget Hne Hfc Htab1 Htab2.
  rewrite (@update_tab_success ticker forecast_days tab df fc Hget Hne Hfc).
  now rewrite Htab1, Htab2.
Qed.



(** C7: once fetch and forecast have succeeded, the historical view is a
    chart with exactly one trace, the closing price over every date of the
    fetched table, and the forecast view a chart with exactly three: the
    actual price over the fetched dates, the point estimate over all forecast
    dates, and the upper bound over the same dates filled down to the
    previous trace (the point estimate); the lower bound is not drawn. *)
Theorem update_tab_traces
    (ticker : string) (forecast_days : Z) (tab : string)
    (df : frame) (fc : forecast_frame) :
  get_stock_data ticker = Some df ->
  empty df = false ->
  forecast_stock df forecast_days = Some fc ->
  exists date close,
    getitem df "Date" = Ok date /\
    getitem df "Close" = Ok close /\
    (tab = "tab1" ->
     exists fig,
       snd (update_tab ticker forecast_days tab) = Ok (Some (Graph fig)) /\
       data fig =
         [ {| x := date; y := close; mode := "lines"; name := "Close Price";
              line := {| color := Some main_color; width := None |};
              fill := None; fillcolor := None |} ]) /\
    (tab = "tab2" ->
     exists fig,
       snd (update_tab ticker forecast_days tab) = Ok (Some (Graph fig)) /\
       data fig =
         [ {| x := date; y := close; mode := "lines"; name := "Actual";
              line := {| color := Some main_color; width := None |};
              fill := None; fillcolor := None |};
           {| x := map (fun r => CTime (ds r)) fc;
              y := map (fun r => CNum (yhat r)) fc;
              mode := "lines"; name := "Forecast";
              line := {| color := Some accent_color; width := None |};
              fill := None; fillcolor := None |};
           {| x := map (fun r => CTime (ds r)) fc;
              y := map (fun r => CNum (yhat_upper r)) fc;
              mode := "lines"; name := "Confidence Interval";
              line := {| color := None; width := Some 0%Z |};
              fill := Some "tonexty";
              fillcolor := Some "rgba(255, 215, 0, 0.12)" |} ]).
Proof.
  intros Hget Hne Hfc.
  destruct (get_stock_data_columns _ Hget) as (date & close & Hd & Hc).
  exists date, close. repeat split; try assumption.
  - intros ->. rewrite (@update_tab_success ticker forecast_days "tab1" df fc Hget Hne Hfc).
    unfold historical_figure, bind. rewrite Hd, Hc.
    cbn [String.eqb Ascii.eqb Bool.eqb]. eexists. split; reflexivity.
  - intros ->. rewrite (@update_tab_success ticker forecast_days "tab2" df fc Hget Hne Hfc).
    unfold forecast_figure, bind. rewrite Hd, Hc.
    cbn [String.eqb Ascii.eqb Bool.eqb]. eexists. split; reflexivity.
Qed.

(** C8, as the code has it: which field changed plays no part.  Every
    trigger calls [get_stock_data]; the stage calls are the same for every
    tab; and [forecast_stock] is called, on the fetched table and with the
    requested horizon, on every trigger whose fetched table is present and
    not empty. *)
Theorem update_tab_runs_stages_for_every_tab
    (ticker : string) (forecast_days : Z) (tab : string) :
  In (Called_get_stock_data ticker)
     (fst (update_tab ticker forecast_days tab)) /\
  (forall tab',
     fst (update_tab ticker forecast_days tab')
     = fst (update_tab ticker forecast_days tab)) /\
  (forall df,
     get_stock_data ticker = Some df -> empty df = false ->
     fst (update_tab ticker forecast_days tab)
     = [Called_get_stock_data ticker; Called_forecast_stock df forecast_days]).
Proof.
  repeat split.
  - rewrite update_tab_calls.
    destruct (get_stock_data ticker) as [df|]; [|now left].
    destruct (empty df); now left.
  - intros tab'. now rewrite !update_tab_calls.
  - intros df Hget Hne. now rewrite update_tab_calls, Hget, Hne.
Qed.

End DashboardFacts.

(* ------------------------------------------------------------------ *)
(** * Further properties *)

(** ** Reading and writing columns *)

Section ColumnFacts.
Context `{Pandas}.

Lemma mem_In (key : string) (labels : list string) :
  mem key labels = true <-> In key labels.
Proof.
  unfold mem. rewrite existsb_exists. split.
  - intros [l [Hin Heq]]. apply String.eqb_eq in Heq. now subst.
  - intros Hin. exists key. split; [assumption | apply String.eqb_refl].
Qed.

Lemma mem_false_In (key : string) (labels : list string) :
  mem key labels = false <-> ~ In key labels.
Proof.
  rewrite <- mem_In. destruct (mem key labels); split; congruence.
Qed.

(** No column carries a label that is not among the names. *)
Lemma filter_label_absent (key : string) (cols : list (string * list cell)) :
  mem key (map fst cols) = false ->
  filter (fun lc => String.eqb (fst lc) key) cols = [].
Proof.
  intros Hmem. apply mem_false_In in Hmem.
  induction cols as [|[l c] cols IH]; simpl; [reflexivity|].
  destruct (String.eqb_spec l key) as [->|_].
  - exfalso. apply Hmem. now left.
  - apply IH. intros Hin. apply Hmem. now right.
Qed.

Lemma getitem_absent (df : frame) (key : string) :
  mem key (names df) = false -> getitem df key = Raise (KeyError key).
Proof.
  intros Hmem. unfold getitem. now rewrite filter_label_absent.
Qed.

Lemma names_rename (old new : string) (df : frame) :
  names (rename old new df)
  = map (fun l => if String.eqb l old then new else l) (names df).
Proof. unfold names, rename. cbn [columns]. now rewrite !map_map. Qed.

Lemma names_setitem (df : frame) (key : string) (col : list cell) :
  names (setitem df key col)
  = if mem key (names df) then names df else (names df ++ [key])%list.
Proof.
  unfold setitem, names. cbn [columns].
  destruct (mem key (map fst (columns df))).
  - rewrite map_map. apply map_ext. intros [l c]. cbn [fst].
    destruct (String.eqb_spec l key) as [->|_]; reflexivity.
  - now rewrite map_app.
Qed.

Lemma In_names_rename (l old new : string) (df : frame) :
  In l (names (rename old new df)) -> In l (names df) \/ l = new.
Proof.
  rewrite names_rename. intros Hin. apply in_map_iff in Hin.
  destruct Hin as [l' [Heq Hin]].
  destruct (String.eqb l' old); subst; [now right | now left].
Qed.

Lemma In_names_setitem (l key : string) (df : frame) (col : list cell) :
  In l (names (setitem df key col)) -> In l (names df) \/ l = key.
Proof.
  rewrite names_setitem. destruct (mem key (names df)); [now left|].
  intros Hin. apply in_app_or in Hin.
  destruct Hin as [Hin | [<- | []]]; [now left | now right].
Qed.

(** Renaming leaves the columns under other labels alone. *)
Lemma getitem_rename_other (df : frame) (old new key : string) :
  key <> old -> key <> new ->
  getitem (rename old new df) key = getitem df key.
Proof.
  intros Hold Hnew. unfold getitem, rename. cbn [columns].
  assert (Hf : forall cols : list (string * list cell),
    filter (fun lc => String.eqb (fst lc) key)
      (map (fun lc => (if String.eqb (fst lc) old then new else fst lc, snd lc))
           cols)
    = filter (fun lc => String.eqb (fst lc) key) cols).
  { induction cols as [|[l c] cols IH]; simpl; [reflexivity|].
    destruct (String.eqb_spec l old) as [->|Hl].
    - destruct (String.eqb_spec new key); [congruence|].
      destruct (String.eqb_spec old key); [congruence|]. exact IH.
    - destruct (String.eqb_spec l key); now rewrite IH. }
  now rewrite Hf.
Qed.

(** Renaming onto a label that is free moves the column with it. *)
Lemma getitem_rename_to (df : frame) (old new : string) (c : list cell) :
  mem new (names df) = false ->
  getitem df old = Ok c ->
  getitem (rename old new df) new = Ok c.
Proof.
  intros Hfree. unfold getitem, rename, names in *. cbn [columns].
  apply mem_false_In in Hfree.
  assert (Hf : forall cols : list (string * list cell),
    ~ In new (map fst cols) ->
    filter (fun lc => String.eqb (fst lc) new)
      (map (fun lc => (if String.eqb (fst lc) old then new else fst lc, snd lc))
           cols)
    = map (fun lc => (new, snd lc))
          (filter (fun lc => String.eqb (fst lc) old) cols)).
  { induction cols as [|[l x] cols IH]; simpl; intros Hnot; [reflexivity|].
    destruct (String.eqb_spec l old) as [->|Hl].
    - rewrite String.eqb_refl. simpl. f_equal. apply IH. tauto.
    - destruct (String.eqb_spec l new) as [->|_]; [tauto|]. apply IH. tauto. }
  rewrite (Hf _ Hfree).
  destruct (filter _ (columns df)) as [|lc [|lc' rest]]; try discriminate.
  intros [= <-]. reflexivity.
Qed.

(** Writing a column leaves the columns under other labels alone. *)
Lemma getitem_setitem_other (df : frame) (key k : string) (col : list cell) :
  key <> k -> getitem (setitem df k col) key = getitem df key.
Proof.
  intros Hne. unfold getitem, setitem. cbn [columns].
  assert (Hf : forall cols : list (string * list cell),
    filter (fun lc => String.eqb (fst lc) key)
      (map (fun lc : string * list cell =>
              if String.eqb (fst lc) k then (k, col) else lc) cols)
    = filter (fun lc => String.eqb (fst lc) key) cols).
  { induction cols as [|[l x] cols IH]; simpl; [reflexivity|].
    destruct (String.eqb_spec l k) as [->|Hl]; simpl.
    - destruct (String.eqb_spec k key); [congruence|]. exact IH.
    - destruct (String.eqb_spec l key); now rewrite IH. }
  destruct (mem k (names df)).
  - now rewrite Hf.
  - rewrite filter_app. simpl.
    destruct (String.eqb_spec k key); [congruence|]. now rewrite app_nil_r.
Qed.

(** A column written over an existing one is read back. *)
Lemma getitem_setitem_same (df : frame) (key : string) (col c : list cell) :
  getitem df key = Ok c -> getitem (setitem df key col) key = Ok col.
Proof.
  intros Hget.
  assert (Hmem : mem key (names df) = true).
  { destruct (mem key (names df)) eqn:E; [reflexivity|].
    rewrite (getitem_absent _ _ E) in Hget. discriminate. }
  revert Hget. unfold getitem, setitem. cbn [columns]. rewrite Hmem.
  assert (Hf : forall cols : list (string * list cell),
    filter (fun lc => String.eqb (fst lc) key)
      (map (fun lc : string * list cell =>
              if String.eqb (fst lc) key then (key, col) else lc) cols)
    = map (fun _ => (key, col))
          (filter (fun lc => String.eqb (fst lc) key) cols)).
  { induction cols as [|[l x] cols IH]; simpl; [reflexivity|].
    destruct (String.eqb_spec l key) as [->|Hl]; simpl.
    - rewrite String.eqb_refl. simpl. now rewrite IH.
    - destruct (String.eqb_spec l key); [congruence|]. exact IH. }
  rewrite Hf.
  destruct (filter _ (columns df)) as [|lc [|lc' rest]]; try discriminate.
  reflexivity.
Qed.

(** A column written under a new label is read back. *)
Lemma getitem_setitem_new (df : frame) (key : string) (col : list cell) :
  mem key (names df) = false -> getitem (setitem df key col) key = Ok col.
Proof.
  intros Hmem. unfold getitem, setitem. cbn [columns]. rewrite Hmem.
  rewrite filter_app, filter_label_absent by exact Hmem.
  simpl. now rewrite String.eqb_refl.
Qed.

End ColumnFacts.

(** ** The shapes of table the fetch stage accepts *)

Section FetchShapes.
Context `{Pandas} `{!YFinance}.

(** [coerce_columns] is its three steps in turn. *)
Lemma coerce_columns_steps (raw : provider_frame) :
  coerce_columns raw =
    (df <- reset_index (flatten_columns raw) ;; convert_columns (ensure_date df)).
Proof. reflexivity. Qed.

Lemma possible_close_head (df : frame) (c : string) (rest : list string) :
  possible_close df = c :: rest ->
  In c (names df) /\ contains "Close" c = true.
Proof.
  unfold possible_close. intros Hpc.
  apply filter_In. rewrite Hpc. now left.
Qed.

Lemma price_label_contains (labels : list string) (l : string) :
  price_label labels = Some l -> In l labels /\ contains "Close" l = true.
Proof.
  unfold price_label. destruct (mem "Close" labels) eqn:Hmem.
  - intros [= <-]. split; [now apply mem_In | reflexivity].
  - destruct (filter (contains "Close") labels) as [|c rest] eqn:Hf;
      [discriminate|].
    intros [= <-]. apply filter_In. rewrite Hf. now left.
Qed.

(** What a coerced table offers: a [Date] column out of [to_datetime] and a
    [Close] column out of [to_numeric]. *)
Lemma convert_columns_inv (df pre : frame) :
  convert_columns df = Ok pre ->
  exists d c,
    getitem pre "Date" = Ok (map to_datetime d) /\
    getitem pre "Close" = Ok (map to_numeric c).
Proof.
  unfold convert_columns, bind. cbv zeta.
  destruct (getitem df "Date") as [date|] eqn:Hdate; [|discriminate].
  remember (setitem df "Date" (map to_datetime date)) as df2 eqn:Hdf2.
  assert (Hd2 : getitem df2 "Date" = Ok (map to_datetime date)).
  { subst df2. eapply getitem_setitem_same. eassumption. }
  remember (if negb (mem "Close" (names df2))
            then match possible_close df2 with
                 | [] => df2
                 | c :: _ => rename c "Close" df2
                 end
            else df2) as df3 eqn:Hdf3.
  assert (Hd3 : getitem df3 "Date" = Ok (map to_datetime date)).
  { subst df3. destruct (negb (mem "Close" (names df2))); [|exact Hd2].
    destruct (possible_close df2) as [|c rest] eqn:Hpc; [exact Hd2|].
    apply possible_close_head in Hpc. destruct Hpc as [_ Hc].
    rewrite getitem_rename_other; [exact Hd2 | | discriminate].
    intros <-. discriminate Hc. }
  destruct (getitem df3 "Close") as [close|] eqn:Hclose; [|discriminate].
  intros [= <-]. exists date, close. split.
  - rewrite getitem_setitem_other by discriminate. exact Hd3.
  - eapply getitem_setitem_same. eassumption.
Qed.

Lemma to_datetime_cases (c : cell) :
  (exists t, to_datetime c = CTime t) \/ to_datetime c = CNull.
Proof.
  destruct c as [t|v|s|]; simpl; eauto.
  - destruct (to_ns v); eauto.
  - destruct (parse_datetime s); eauto.
Qed.

Lemma to_numeric_cases (c : cell) :
  (exists v, to_numeric c = CNum v) \/ to_numeric c = CNull.
Proof.
  destruct c as [t|v|s|]; simpl; eauto.
  destruct (parse_numeric s); eauto.
Qed.

(** The rows that survive [dropna] after the two coercions are typed. *)
Lemma kept_rows_typed (d c : list cell) :
  exists obs,
    filter both_notna (combine (map to_datetime d) (map to_numeric c))
    = typed_rows obs.
Proof.
  revert c. induction d as [|a d IH]; intros [|b c]; simpl;
    try (exists []; reflexivity).
  destruct (IH c) as [obs Hobs]. rewrite Hobs.
  unfold both_notna. cbn [fst snd].
  destruct (to_datetime_cases a) as [[t ->] | ->]; simpl;
    [|exists obs; reflexivity].
  destruct (to_numeric_cases b) as [[v ->] | ->]; simpl;
    [|exists obs; reflexivity].
  exists ((t, v) :: obs). reflexivity.
Qed.

Lemma map_fst_typed_rows (obs : list (Z * number)) :
  map fst (typed_rows obs) = map CTime (map fst obs).
Proof. unfold typed_rows. now rewrite !map_map. Qed.

Lemma map_snd_typed_rows (obs : list (Z * number)) :
  map snd (typed_rows obs) = map CNum (map snd obs).
Proof. unfold typed_rows. now rewrite !map_map. Qed.

(** Dropping the rows with a missing date or price, column by column. *)
Lemma dropna_columns (pre : frame) (c1 c2 : list cell) :
  getitem pre "Date" = Ok c1 ->
  getitem pre "Close" = Ok c2 ->
  exists df,
    dropna "Date" "Close" pre = Ok df /\
    getitem df "Date" = Ok (map fst (filter both_notna (combine c1 c2))) /\
    getitem df "Close" = Ok (map snd (filter both_notna (combine c1 c2))).
Proof.
  intros H1 H2. destruct (dropna_ok "Date" "Close" pre H1 H2) as [df Hdrop].
  exists df. split; [exact Hdrop|].
  apply dropna_inv in Hdrop.
  destruct Hdrop as (c1' & c2' & H1' & H2' & Hd & Hc & _).
  rewrite H1 in H1'. rewrite H2 in H2'.
  injection H1' as <-. injection H2' as <-.
  rewrite select_fst_filter in Hd. rewrite select_snd_filter in Hc. auto.
Qed.

(** The two columns of a fetched table, as one list of typed rows. *)
Lemma get_stock_data_rows (ticker : string) (df : frame) :
  get_stock_data ticker = Some df ->
  exists obs : list (Z * number),
    getitem df "Date" = Ok (map CTime (map fst obs)) /\
    getitem df "Close" = Ok (map CNum (map snd obs)).
Proof.
  intros Hget. apply get_stock_data_inv in Hget.
  destruct Hget as (raw & pre & _ & _ & Hpre & Hdrop).
  rewrite coerce_columns_steps in Hpre. unfold bind in Hpre.
  destruct (reset_index (flatten_columns raw)) as [df1|]; [|discriminate].
  apply convert_columns_inv in Hpre. destruct Hpre as (d & c & Hd & Hc).
  destruct (dropna_columns _ Hd Hc) as (df' & Hdrop' & Hd' & Hc').
  rewrite Hdrop in Hdrop'. injection Hdrop' as <-.
  destruct (kept_rows_typed d c) as [obs Hobs].
  exists obs. rewrite Hobs in Hd', Hc'.
  now rewrite map_fst_typed_rows in Hd'; rewrite map_snd_typed_rows in Hc'.
Qed.

(** In a table returned by [get_stock_data] every [Date] cell is a
    timestamp and every [Close] cell a number, and the two columns have the
    same number of rows: the table is a list of dated prices. *)
Theorem get_stock_data_dated_prices (ticker : string) (df : frame) :
  get_stock_data ticker = Some df ->
  exists (ts : list Z) (vs : list number),
    getitem df "Date" = Ok (map CTime ts) /\
    getitem df "Close" = Ok (map CNum vs) /\
    List.length ts = List.length vs.
Proof.
  intros Hget. destruct (get_stock_data_rows _ Hget) as (obs & Hd & Hc).
  exists (map fst obs), (map snd obs). now rewrite !length_map.
Qed.

(** The price column, once the [Date] column is in place: the column under
    the price label is coerced and served as [Close]. *)
Lemma convert_columns_resolved (df : frame) (l : string) (d c : list cell) :
  getitem df "Date" = Ok d ->
  price_label (names df) = Some l ->
  getitem df l = Ok c ->
  exists pre,
    convert_columns df = Ok pre /\
    getitem pre "Date" = Ok (map to_datetime d) /\
    getitem pre "Close" = Ok (map to_numeric c).
Proof.
  intros Hd Hlabel Hc.
  pose proof (price_label_contains _ Hlabel) as [_ Hcontains].
  assert (Hl : l <> "Date") by (intros ->; discriminate Hcontains).
  assert (Hmem : mem "Date" (names df) = true)
    by (eapply getitem_ok_mem; eassumption).
  unfold convert_columns, bind. rewrite Hd. cbv zeta.
  remember (setitem df "Date" (map to_datetime d)) as df2 eqn:Hdf2.
  assert (Hnames : names df2 = names df).
  { subst df2. rewrite names_setitem. now rewrite Hmem. }
  assert (Hd2 : getitem df2 "Date" = Ok (map to_datetime d)).
  { subst df2. eapply getitem_setitem_same. eassumption. }
  assert (Hc2 : getitem df2 l = Ok c).
  { subst df2. rewrite getitem_setitem_other by exact Hl. exact Hc. }
  assert (Hdf3 : exists df3,
    (if negb (mem "Close" (names df2))
     then match possible_close df2 with
          | [] => df2
          | c0 :: _ => rename c0 "Close" df2
          end
     else df2) = df3 /\
    getitem df3 "Date" = Ok (map to_datetime d) /\
    getitem df3 "Close" = Ok c).
  { unfold price_label in Hlabel. unfold possible_close. rewrite Hnames.
    destruct (mem "Close" (names df)) eqn:Hclose; cbn [negb].
    - injection Hlabel as <-. eauto.
    - destruct (filter (contains "Close") (names df)) as [|c0 rest];
        [discriminate|].
      injection Hlabel as ->. eexists. split; [reflexivity|]. split.
      + rewrite getitem_rename_other; [exact Hd2 | congruence | discriminate].
      + apply getitem_rename_to; [now rewrite Hnames | exact Hc2]. }
  destruct Hdf3 as (df3 & -> & Hd3 & Hc3). rewrite Hc3.
  eexists. split; [reflexivity|]. split.
  - rewrite getitem_setitem_other by discriminate. exact Hd3.
  - eapply getitem_setitem_same. eassumption.
Qed.

(** From the download to the cleaned table, once the sources of the two
    columns are known. *)
Lemma get_stock_data_resolved (ticker : string) (raw : provider_frame)
    (df1 : frame) (l : string) (d c : list cell) :
  download ticker "5y" "1d" true = Ok raw ->
  p_empty raw = false ->
  reset_index (flatten_columns raw) = Ok df1 ->
  getitem (ensure_date df1) "Date" = Ok d ->
  price_label (names (ensure_date df1)) = Some l ->
  getitem (ensure_date df1) l = Ok c ->
  let kept :=
    filter both_notna (combine (map to_datetime d) (map to_numeric c)) in
  exists df,
    get_stock_data ticker = Some df /\
    getitem df "Date" = Ok (map fst kept) /\
    getitem df "Close" = Ok (map snd kept).
Proof.
  intros Hdl Hne Hreset Hd Hlabel Hc kept.
  destruct (convert_columns_resolved _ Hd Hlabel Hc)
    as (pre & Hpre & Hpd & Hpc).
  destruct (dropna_columns _ Hpd Hpc) as (df & Hdrop & Hdd & Hdc).
  exists df. split; [|split; assumption].
  unfold get_stock_data, get_stock_data_try, except_none.
  rewrite Hdl. cbn [bind]. rewrite Hne, coerce_columns_steps, Hreset.
  cbn [bind]. rewrite Hpre. cbn [bind]. now rewrite Hdrop.
Qed.

Lemma rename_absent (old new : string) (cols : list (string * list cell)) :
  mem old (map fst cols) = false ->
  map (fun lc : string * list cell =>
         (if String.eqb (fst lc) old then new else fst lc, snd lc)) cols
  = cols.
Proof.
  intros Hmem. apply mem_false_In in Hmem.
  induction cols as [|[l x] cols IH]; simpl; [reflexivity|].
  destruct (String.eqb_spec l old) as [->|_].
  - exfalso. apply Hmem. now left.
  - f_equal. apply IH. intros Hin. apply Hmem. now right.
Qed.

Lemma price_label_cons (l0 : string) (labels : list string) :
  contains "Close" l0 = false ->
  price_label (l0 :: labels) = price_label labels.
Proof.
  intros Hl0. unfold price_label, mem. cbn [existsb filter]. rewrite Hl0.
  destruct (String.eqb_spec "Close" l0) as [<-|_]; [discriminate Hl0|].
  reflexivity.
Qed.

Lemma price_label_snoc (l0 : string) (labels : list string) :
  contains "Close" l0 = false ->
  price_label (labels ++ [l0]) = price_label labels.
Proof.
  intros Hl0. unfold price_label, mem.
  rewrite existsb_app, filter_app. cbn [existsb filter]. rewrite Hl0.
  destruct (String.eqb_spec "Close" l0) as [<-|_]; [discriminate Hl0|].
  now rewrite !orb_false_r, app_nil_r.
Qed.

Lemma getitem_cons_other (iname : option string) (idx : list cell)
    (l0 key : string) (c0 : list cell) (cols : list (string * list cell)) :
  key <> l0 ->
  getitem {| index_name := iname; index := idx; columns := (l0, c0) :: cols |}
          key
  = getitem {| index_name := None; index := []; columns := cols |} key.
Proof.
  intros Hne. unfold getitem. cbn [columns filter fst].
  destruct (String.eqb_spec l0 key); [congruence | reflexivity].
Qed.

Lemma getitem_columns_only (df df' : frame) (key : string) :
  columns df = columns df' -> getitem df key = getitem df' key.
Proof. unfold getitem. now intros ->. Qed.






(** The provider's usual table: the index named "Date" (daily bars), or
    named "Datetime" (intraday bars) with no "Date" column, and no column
    named like the index.  The cleaned dates are the index values and the
    cleaned prices the column under the price label, for the rows where both
    parse, in the order received. *)
Theorem get_stock_data_named_index (ticker : string) (raw : provider_frame)
    (n l : string) (closes : list cell) :
  download ticker "5y" "1d" true = Ok raw ->
  p_empty raw = false ->
  p_index_name raw = Some n ->
  n = "Date" \/ n = "Datetime" ->
  mem n (names (flatten_columns raw)) = false ->
  mem "Date" (names (flatten_columns raw)) = false ->
  price_label (names (flatten_columns raw)) = Some l ->
  getitem (flatten_columns raw) l = Ok closes ->
  let kept :=
    filter both_notna
      (combine (map to_datetime (p_index raw)) (map to_numeric closes)) in
  exists df,
    get_stock_data ticker = Some df /\
    getitem df "Date" = Ok (map fst kept) /\
    getitem df "Close" = Ok (map snd kept).
Proof.
  intros Hdl Hne Hname Hn Hfree Hnodate Hlabel Hcloses kept.
  pose proof (price_label_contains _ Hlabel) as [_ Hcontains].
  set (df0 := flatten_columns raw) in *.
  assert (Hreset : reset_index df0
                   = Ok {| index_name := None;
                           index := range_index (List.length (index df0));
                           columns := (n, index df0) :: columns df0 |}).
  { unfold reset_index. subst df0. cbn [index_name flatten_columns].
    rewrite Hname. fold (flatten_columns raw) in *. now rewrite Hfree. }
  assert (Hensure :
    columns (ensure_date
               {| index_name := None;
                  index := range_index (List.length (index df0));
                  columns := (n, index df0) :: columns df0 |})
    = ("Date", p_index raw) :: columns df0).
  { unfold ensure_date, names. cbn [columns map fst].
    destruct Hn as [-> | ->].
    - reflexivity.
    - change (mem "Date" ("Datetime" :: map fst (columns df0)))
        with (mem "Date" (names df0)).
      rewrite Hnodate. cbn [negb].
      change (mem "Datetime" ("Datetime" :: map fst (columns df0))) with true.
      cbn [rename columns map fst snd String.eqb Ascii.eqb Bool.eqb].
      f_equal. now apply rename_absent. }
  eapply (get_stock_data_resolved _ Hdl Hne Hreset).
  - unfold getitem. rewrite Hensure. cbn [filter fst String.eqb Ascii.eqb Bool.eqb].
    now rewrite filter_label_absent.
  - unfold names at 1. rewrite Hensure. cbn [map fst].
    rewrite price_label_cons by reflexivity. exact Hlabel.
  - unfold getitem. rewrite Hensure. cbn [filter fst].
    destruct (String.eqb_spec "Date" l) as [<-|_];
      [discriminate Hcontains | exact Hcloses].
Qed.

(** A table with an unnamed index and no "Date", "Datetime" or "index"
    column: the dates are not taken from the index values but from the row
    numbers 0, 1, 2, ..., read by [to_datetime] as instants. *)
Theorem get_stock_data_unnamed_index (ticker : string) (raw : provider_frame)
    (l : string) (closes : list cell) :
  download ticker "5y" "1d" true = Ok raw ->
  p_empty raw = false ->
  p_index_name raw = None ->
  mem "index" (names (flatten_columns raw)) = false ->
  mem "Date" (names (flatten_columns raw)) = false ->
  mem "Datetime" (names (flatten_columns raw)) = false ->
  price_label (names (flatten_columns raw)) = Some l ->
  getitem (flatten_columns raw) l = Ok closes ->
  let kept :=
    filter both_notna
      (combine (map to_datetime (range_index (List.length (p_index raw))))
               (map to_numeric closes)) in
  exists df,
    get_stock_data ticker = Some df /\
    getitem df "Date" = Ok (map fst kept) /\
    getitem df "Close" = Ok (map snd kept).
Proof.
  intros Hdl Hne Hname Hnoindex Hnodate Hnodt Hlabel Hcloses kept.
  pose proof (price_label_contains _ Hlabel) as [_ Hcontains].
  set (df0 := flatten_columns raw) in *.
  set (df1 := {| index_name := None;
                 index := range_index (List.length (index df0));
                 columns := ("index", index df0) :: columns df0 |}).
  assert (Hreset : reset_index df0 = Ok df1).
  { unfold reset_index. subst df0. cbn [index_name flatten_columns].
    rewrite Hname. fold (flatten_columns raw) in *.
    rewrite Hnoindex. now rewrite Hnoindex. }
  assert (Hnames1 : names df1 = "index" :: names df0) by reflexivity.
  assert (Hensure : ensure_date df1
                    = setitem df1 "Date" (range_index (List.length (p_index raw)))).
  { unfold ensure_date. rewrite Hnames1.
    change (mem "Date" ("index" :: names df0)) with (mem "Date" (names df0)).
    change (mem "Datetime" ("index" :: names df0))
      with (mem "Datetime" (names df0)).
    now rewrite Hnodate, Hnodt. }
  assert (Hfresh : mem "Date" (names df1) = false).
  { rewrite Hnames1. exact Hnodate. }
  eapply (get_stock_data_resolved _ Hdl Hne Hreset).
  - rewrite Hensure. now apply getitem_setitem_new.
  - rewrite Hensure, names_setitem, Hfresh, Hnames1.
    rewrite price_label_snoc by reflexivity.
    rewrite price_label_cons by reflexivity. exact Hlabel.
  - rewrite Hensure.
    rewrite getitem_setitem_other by (intros ->; discriminate Hcontains).
    unfold df1. rewrite getitem_cons_other
      by (intros ->; discriminate Hcontains).
    rewrite <- Hcloses. now apply getitem_columns_only.
Qed.

(** An index whose name is also a column label cannot be turned into a
    column: the fetch gives [None]. *)
Theorem get_stock_data_index_label_clash (ticker : string)
    (raw : provider_frame) (n : string) :
  download ticker "5y" "1d" true = Ok raw ->
  p_index_name raw = Some n ->
  mem n (names (flatten_columns raw)) = true ->
  get_stock_data ticker = None.
Proof.
  intros Hdl Hname Hclash.
  unfold get_stock_data, get_stock_data_try, except_none.
  rewrite Hdl. cbn [bind]. destruct (p_empty raw); [reflexivity|].
  rewrite coerce_columns_steps. unfold reset_index.
  cbn [index_name flatten_columns]. rewrite Hname.
  fold (flatten_columns raw). now rewrite Hclash.
Qed.

(** Without a label that contains "Close", among the columns or as the name
    of the index, there is no price to read: the fetch gives [None]. *)
Theorem get_stock_data_no_close_column (ticker : string)
    (raw : provider_frame) :
  download ticker "5y" "1d" true = Ok raw ->
  (forall l, In l (names (flatten_columns raw)) -> contains "Close" l = false) ->
  (forall n, p_index_name raw = Some n -> contains "Close" n = false) ->
  get_stock_data ticker = None.
Proof.
  intros Hdl Hcols Hindex.
  destruct (get_stock_data ticker) as [df|] eqn:Hget; [exfalso | reflexivity].
  apply get_stock_data_inv in Hget.
  destruct Hget as (raw' & pre & Hdl' & _ & Hpre & _).
  rewrite Hdl in Hdl'. injection Hdl' as <-.
  rewrite coerce_columns_steps in Hpre. unfold bind in Hpre.
  destruct (reset_index (flatten_columns raw)) as [df1|] eqn:Hreset;
    [|discriminate].
  assert (H1 : forall l, In l (names df1) -> contains "Close" l = false).
  { revert Hreset. unfold reset_index.
    destruct (mem _ (names (flatten_columns raw))); [discriminate|].
    intros [= <-] l [<- | Hin]; [|now apply Hcols].
    cbn [index_name flatten_columns].
    destruct (p_index_name raw) as [n|] eqn:Hn; [now apply Hindex|].
    destruct (mem "index" _); reflexivity. }
  assert (H1' : forall l, In l (names (ensure_date df1)) ->
                          contains "Close" l = false).
  { unfold ensure_date. intros l.
    destruct (negb (mem "Date" (names df1))); [|apply H1].
    destruct (mem "Datetime" (names df1)); intros Hin.
    - apply In_names_rename in Hin. destruct Hin as [Hin | ->];
        [now apply H1 | reflexivity].
    - apply In_names_setitem in Hin. destruct Hin as [Hin | ->];
        [now apply H1 | reflexivity]. }
  revert Hpre. unfold convert_columns, bind. cbv zeta.
  destruct (getitem (ensure_date df1) "Date") as [date|]; [|discriminate].
  remember (setitem (ensure_date df1) "Date" (map to_datetime date)) as df2.
  assert (H2 : forall l, In l (names df2) -> contains "Close" l = false).
  { subst df2. intros l Hin. apply In_names_setitem in Hin.
    destruct Hin as [Hin | ->]; [now apply H1' | reflexivity]. }
  assert (Hmem : mem "Close" (names df2) = false).
  { apply mem_false_In. intros Hin. apply H2 in Hin. discriminate Hin. }
  rewrite Hmem. cbn [negb].
  destruct (possible_close df2) as [|c rest] eqn:Hpc.
  - now rewrite (getitem_absent _ _ Hmem).
  - apply possible_close_head in Hpc. destruct Hpc as [Hin Hc].
    apply H2 in Hin. congruence.
Qed.

End FetchShapes.

(** ** The forecast stage on any table *)

Section ForecastShapes.
Context `{Pandas} `{!YFinance} `{!Prophet}.

Lemma combine_fst_snd (obs : list (Z * number)) :
  combine (map fst obs) (map snd obs) = obs.
Proof.
  induction obs as [|[t v] obs IH]; simpl; [reflexivity|]. now rewrite IH.
Qed.

(** The second cleaning, in [forecast_stock], finds nothing to do on a
    table that [get_stock_data] returned: the model is trained on the rows
    of the table, all of them and unchanged. *)
Theorem forecast_stock_trains_on_fetched_rows
    (ticker : string) (df : frame) (date close : list cell) :
  get_stock_data ticker = Some df ->
  getitem df "Date" = Ok date ->
  getitem df "Close" = Ok close ->
  prepare_model_df df = Ok (combine date close) /\
  List.length (combine date close) = List.length date /\
  List.length (combine date close) = List.length close.
Proof.
  intros Hget Hdate Hclose.
  destruct (get_stock_data_rows _ Hget) as (obs & Hd & Hc).
  rewrite Hdate in Hd. rewrite Hclose in Hc.
  injection Hd as ->. injection Hc as ->.
  rewrite combine_typed, combine_fst_snd. repeat split.
  - unfold prepare_model_df, bind. rewrite Hdate, Hclose.
    rewrite combine_typed, combine_fst_snd.
    rewrite filter_typed_rows, coerce_typed_rows. now rewrite filter_typed_rows.
  - unfold typed_rows. now rewrite !length_map.
  - unfold typed_rows. now rewrite !length_map.
Qed.

(** A table without a "Date" or a "Close" column is not forecast: the
    [KeyError] of the column selection is turned into [None]. *)
Theorem forecast_stock_missing_column (df : frame) (periods : Z) :
  mem "Date" (names df) = false \/ mem "Close" (names df) = false ->
  forecast_stock df periods = None.
Proof.
  intros Hmissing.
  unfold forecast_stock, forecast_stock_try, prepare_model_df, except_none, bind.
  destruct Hmissing as [Hd | Hc].
  - now rewrite (getitem_absent _ _ Hd).
  - rewrite (getitem_absent _ _ Hc). now destruct (getitem df "Date").
Qed.

(** Prophet needs two rows: a table with fewer than two rows is not
    forecast, whatever the horizon. *)
Theorem forecast_stock_too_short
    (df : frame) (periods : Z) (date close : list cell) :
  getitem df "Date" = Ok date ->
  getitem df "Close" = Ok close ->
  (List.length date < 2 \/ List.length close < 2)%nat ->
  forecast_stock df periods = None.
Proof.
  intros Hdate Hclose Hshort.
  unfold forecast_stock, forecast_stock_try, prepare_model_df, except_none.
  rewrite Hdate, Hclose. cbn [bind]. unfold fit.
  match goal with
  | |- context [Nat.ltb (List.length ?history) 2] =>
      assert (Hlen : (List.length history < 2)%nat)
  end.
  { eapply Nat.le_lt_trans; [apply filter_length_le|].
    eapply Nat.le_lt_trans; [apply filter_length_le|].
    rewrite !length_map.
    eapply Nat.le_lt_trans; [apply filter_length_le|].
    rewrite length_combine. lia. }
  apply Nat.ltb_lt in Hlen. now rewrite Hlen.
Qed.

Lemma unique_In (t : Z) (l : list Z) : In t (unique l) <-> In t l.
Proof.
  induction l as [|u l IH]; simpl; [reflexivity|].
  rewrite filter_In, IH. split.
  - intros [-> | [Hin _]]; auto.
  - intros [-> | Hin]; [now left|].
    destruct (Z.eq_dec t u) as [->|Hne]; [now left|].
    right. split; [assumption|]. apply negb_true_iff. now apply Z.eqb_neq.
Qed.

Lemma unique_NoDup (l : list Z) : NoDup (unique l).
Proof.
  induction l as [|u l IH]; simpl; constructor.
  - rewrite filter_In. intros [_ Hne].
    rewrite Z.eqb_refl in Hne. discriminate.
  - now apply NoDup_filter.
Qed.

Lemma insert_sorted_NoDup (t : Z) (l : list Z) :
  ~ In t l -> NoDup l -> NoDup (insert_sorted t l).
Proof.
  induction l as [|u l IH]; simpl; intros Hnot Hnd.
  - constructor; [auto | constructor].
  - destruct (Z.leb t u).
    + constructor; [simpl; exact Hnot | exact Hnd].
    + inversion Hnd as [|? ? Hu Hnd']; subst. constructor.
      * rewrite insert_sorted_In. intros [-> | Hin]; [|contradiction].
        apply Hnot. now left.
      * apply IH; [|assumption]. intros Hin. apply Hnot. now right.
Qed.

Lemma sort_values_In (t : Z) (l : list Z) : In t (sort_values l) <-> In t l.
Proof.
  induction l as [|u l IH]; simpl; [reflexivity|].
  rewrite insert_sorted_In, IH. intuition.
Qed.

Lemma sort_values_NoDup (l : list Z) : NoDup l -> NoDup (sort_values l).
Proof.
  induction 1 as [|u l Hu Hnd IH]; simpl; [constructor|].
  apply insert_sorted_NoDup; [|assumption]. now rewrite sort_values_In.
Qed.

Lemma sorted_distinct_strict (l : list Z) :
  StronglySorted Z.le l -> NoDup l -> StronglySorted Z.lt l.
Proof.
  induction 1 as [|u l Hs IH Hall]; intros Hnd; constructor.
  - apply IH. now inversion Hnd.
  - inversion Hnd as [|? ? Hu _]; subst.
    rewrite Forall_forall in *. intros t Ht.
    specialize (Hall t Ht). assert (t <> u) by (intros ->; contradiction).
    lia.
Qed.

Lemma strictly_sorted_app (l1 l2 : list Z) :
  StronglySorted Z.lt l1 -> StronglySorted Z.lt l2 ->
  (forall a b, In a l1 -> In b l2 -> (a < b)%Z) ->
  StronglySorted Z.lt (l1 ++ l2).
Proof.
  induction 1 as [|u l1 Hs IH Hall]; intros H2 Hcross; simpl; [assumption|].
  constructor.
  - apply IH; [assumption|]. intros a b Ha Hb. apply Hcross; [now right | assumption].
  - apply Forall_app. split; [assumption|].
    apply Forall_forall. intros b Hb. apply Hcross; [now left | assumption].
Qed.

Lemma timestamps_In_iff (t : Z) (col : list cell) :
  In t (timestamps col) <-> In (CTime t) col.
Proof.
  unfold timestamps. rewrite in_flat_map. split.
  - intros [c [Hin Ht]].
    destruct c as [u|v|s|]; simpl in Ht; try contradiction.
    destruct Ht as [<- | []]. exact Hin.
  - intros Hin. exists (CTime t). split; [assumption | now left].
Qed.

(** The training dates of a fitted model: the dates of the table, each
    once, in increasing order. *)
Lemma fit_history_dates (b : bool) (rows : list (cell * cell))
    (model : prophet_model) :
  fit b rows = Ok model ->
  StronglySorted Z.lt (history_dates model) /\
  forall t, In t (history_dates model) <-> In (CTime t) (map fst rows).
Proof.
  intros Hfit. destruct (fit_inv _ _ Hfit) as (-> & _ & _). split.
  - apply sorted_distinct_strict; [apply sort_values_strongly|].
    apply sort_values_NoDup, unique_NoDup.
  - intros t. now rewrite sort_values_In, unique_In, timestamps_In_iff.
Qed.

Lemma last_In (l : list Z) (d : Z) : l <> [] -> In (last l d) l.
Proof.
  intros Hne. apply (@Forall_last (fun t => In t l) l d); [|exact Hne].
  apply Forall_forall. auto.
Qed.

(** The dates appended to the training dates, when the range is granted. *)
Lemma make_future_dataframe_nonneg (model : prophet_model) (h : Z) :
  (0 <= h)%Z ->
  history_dates model <> [] ->
  StronglySorted Z.lt (history_dates model) ->
  (last (history_dates model) 0 + h * day_ns <= Timestamp_max)%Z ->
  make_future_dataframe model h
  = Ok (history_dates model
        ++ calendar_days_after (last (history_dates model) 0%Z) (Z.to_nat h))%list.
Proof.
  intros Hh Hne Hsorted Hmax. unfold make_future_dataframe.
  destruct (history_dates model) as [|t0 rest] eqn:Htrained; [congruence|].
  assert (Hlast : maximum t0 rest = last (t0 :: rest) 0%Z).
  { rewrite maximum_sorted by now apply lt_sorted_le.
    destruct rest as [|u rest']; [reflexivity|].
    change (last (t0 :: u :: rest') 0%Z) with (last (u :: rest') 0%Z).
    apply last_nonempty_default. }
  rewrite Hlast.
  destruct (Z.ltb_spec (h + 1) 0); [lia|].
  rewrite date_range_in_bounds
    by (replace (Z.of_nat (Z.to_nat (h + 1) - 1)) with h by lia; exact Hmax).
  cbn [bind]. now rewrite future_dates_nonneg by lia.
Qed.

(** The forecast of a fitted table for a horizon h >= 0, spelled out. *)
Lemma forecast_stock_nonneg
    (df : frame) (h : Z) (rows : list (cell * cell)) (model : prophet_model) :
  (0 <= h)%Z ->
  prepare_model_df df = Ok rows ->
  fit true rows = Ok model ->
  (last (history_dates model) 0 + h * day_ns <= Timestamp_max)%Z ->
  let trained := history_dates model in
  let dates :=
    (trained ++ calendar_days_after (last trained 0%Z) (Z.to_nat h))%list in
  forecast_stock df h = Some (predicted_rows model dates) /\
  StronglySorted Z.lt dates.
Proof.
  intros Hh Hrows Hfit Hmax trained dates.
  destruct (fit_history_dates _ _ Hfit) as [Hsorted _].
  destruct (fit_inv _ _ Hfit) as (_ & Hne & _).
  assert (Hfuture : make_future_dataframe model h = Ok dates)
    by now apply make_future_dataframe_nonneg.
  fold trained in Hsorted, Hne.
  assert (Hstrict : StronglySorted Z.lt dates).
  { apply strictly_sorted_app; [assumption | apply calendar_days_after_sorted|].
    intros a b Ha Hb.
    pose proof (@sorted_le_last a trained 0%Z (lt_sorted_le Hsorted) Ha).
    pose proof (calendar_days_after_gt (last trained 0%Z) (Z.to_nat h)) as Hgt.
    rewrite Forall_forall in Hgt. specialize (Hgt b Hb). lia. }
  split; [|exact Hstrict].
  unfold forecast_stock, forecast_stock_try, except_none.
  rewrite Hrows. cbn [bind]. rewrite Hfit. cbn [bind].
  rewrite Hfuture. cbn [bind]. unfold predict.
  destruct dates as [|d0 drest] eqn:Hdates.
  { subst dates. destruct trained; [congruence | discriminate]. }
  rewrite (sort_values_sorted (lt_sorted_le Hstrict)). reflexivity.
Qed.

(** For any table Prophet can fit and any horizon h >= 0 whose last day is
    still a timestamp (at most [Timestamp_max]), the forecast is dated with
    the distinct dates of the table in increasing order followed by the h
    calendar days after the latest of them.  Its dates are strictly
    increasing even when the rows of the table are out of order or repeat a
    date, and it has as many rows as the table has distinct dates, plus h. *)
Theorem forecast_stock_dates
    (df : frame) (h : Z) (rows : list (cell * cell)) (model : prophet_model) :
  (0 <= h)%Z ->
  prepare_model_df df = Ok rows ->
  fit true rows = Ok model ->
  (last (history_dates model) 0 + h * day_ns <= Timestamp_max)%Z ->
  let trained := history_dates model in
  let dates :=
    (trained ++ calendar_days_after (last trained 0%Z) (Z.to_nat h))%list in
  forecast_stock df h = Some (predicted_rows model dates) /\
  map ds (predicted_rows model dates) = dates /\
  StronglySorted Z.lt dates /\
  (forall t, In t trained <-> In (CTime t) (map fst rows)) /\
  List.length (predicted_rows model dates)
    = (List.length trained + Z.to_nat h)%nat.
Proof.
  intros Hh Hrows Hfit Hmax trained dates.
  destruct (forecast_stock_nonneg _ Hh Hrows Hfit Hmax) as [Hsome Hstrict].
  destruct (fit_history_dates _ _ Hfit) as [_ Hin].
  split; [exact Hsome|].
  split; [apply map_ds_predicted_rows|].
  split; [exact Hstrict|].
  split; [exact Hin|].
  rewrite <- (length_map ds), map_ds_predicted_rows. subst dates.
  now rewrite length_app, calendar_days_after_length.
Qed.

(** A horizon that reaches past the last timestamp is not forecast: for
    h >= 1, when the h-th day after the latest date of the table lies beyond
    [Timestamp_max], the date range is refused and the result is [None],
    although the table itself can be fitted. *)
Theorem forecast_stock_horizon_overflow
    (df : frame) (h : Z) (rows : list (cell * cell)) (model : prophet_model) :
  (1 <= h)%Z ->
  prepare_model_df df = Ok rows ->
  fit true rows = Ok model ->
  (Timestamp_max < last (history_dates model) 0 + h * day_ns)%Z ->
  forecast_stock df h = None.
Proof.
  intros Hh Hrows Hfit Hover.
  destruct (fit_history_dates _ _ Hfit) as [Hsorted _].
  destruct (fit_inv _ _ Hfit) as (_ & Hne & _).
  unfold forecast_stock, forecast_stock_try, except_none.
  rewrite Hrows. cbn [bind]. rewrite Hfit. cbn [bind].
  unfold make_future_dataframe.
  destruct (history_dates model) as [|t0 rest] eqn:Htrained; [congruence|].
  assert (Hlast : maximum t0 rest = last (t0 :: rest) 0%Z).
  { rewrite maximum_sorted by now apply lt_sorted_le.
    destruct rest as [|u rest']; [reflexivity|].
    change (last (t0 :: u :: rest') 0%Z) with (last (u :: rest') 0%Z).
    apply last_nonempty_default. }
  rewrite Hlast.
  destruct (Z.ltb_spec (h + 1) 0); [lia|].
  unfold date_range.
  replace (Z.of_nat (Z.to_nat (h + 1) - 1)) with h by lia.
  destruct (Nat.ltb_spec 1 (Z.to_nat (h + 1))); [|lia].
  destruct (Z.ltb_spec Timestamp_max (last (t0 :: rest) 0 + h * day_ns)%Z);
    [reflexivity | lia].
Qed.

(** Whether a forecast is returned does not depend on the horizon, as long
    as it is not negative and stays within the timestamps: when every date of
    the table, moved forward by the larger of two horizons h, h' >= 0, is at
    most [Timestamp_max], the table is forecast for h exactly when it is
    forecast for h'.  Only the table decides. *)
Theorem forecast_stock_success_ignores_horizon (df : frame) (h h' : Z) :
  (0 <= h)%Z -> (0 <= h')%Z ->
  (forall rows t,
     prepare_model_df df = Ok rows ->
     In (CTime t) (map fst rows) ->
     (t + Z.max h h' * day_ns <= Timestamp_max)%Z) ->
  (forecast_stock df h = None <-> forecast_stock df h' = None).
Proof.
  intros Hh Hh' Hrange.
  assert (Hone : forall a b, (0 <= a <= Z.max h h')%Z ->
                   forecast_stock df a = None -> forecast_stock df b = None).
  { intros a b Ha Hnone.
    destruct (prepare_model_df df) as [rows|e] eqn:Hrows.
    - destruct (fit true rows) as [model|e] eqn:Hfit.
      + exfalso.
        destruct (fit_history_dates _ _ Hfit) as [_ Hin].
        destruct (fit_inv _ _ Hfit) as (_ & Hne & _).
        pose proof (Hrange rows (last (history_dates model) 0%Z) eq_refl
                      (proj1 (Hin _) (last_In 0%Z Hne))) as Hmax.
        assert (Hmax' : (last (history_dates model) 0 + a * day_ns
                         <= Timestamp_max)%Z).
        { pose proof day_ns_pos. nia. }
        destruct (forecast_stock_nonneg _ (proj1 Ha) Hrows Hfit Hmax')
          as [Hsome _].
        rewrite Hsome in Hnone. discriminate.
      + unfold forecast_stock, forecast_stock_try, except_none.
        rewrite Hrows. cbn [bind]. now rewrite Hfit.
    - unfold forecast_stock, forecast_stock_try, except_none.
      now rewrite Hrows. }
  split; apply Hone; lia.
Qed.

End ForecastShapes.

(** ** The callback on its other paths *)

Section CallbackPaths.
Context `{Pandas} `{!YFinance} `{!Prophet}.

(** When the fetch gives a table with rows and the forecast fails, the
    callback answers with the "forecast failed" message after calling both
    stages, the fetch first; the tab plays no part, so the historical view is
    withheld too. *)
Theorem update_tab_forecast_failed
    (ticker : string) (forecast_days : Z) (tab : string) (df : frame) :
  get_stock_data ticker = Some df ->
  empty df = false ->
  forecast_stock df forecast_days = None ->
  update_tab ticker forecast_days tab =
    ([Called_get_stock_data ticker; Called_forecast_stock df forecast_days],
     Ok (Some (Div forecast_failed_message message_style))).
Proof.
  intros Hget Hne Hfc.
  unfold update_tab, call_get_stock_data, call_forecast_stock, tbind, ret.
  now rewrite Hget, Hne, Hfc.
Qed.

(** No exception leaves the callback, whatever the ticker, the horizon and
    the tab. *)
Theorem update_tab_never_raises
    (ticker : string) (forecast_days : Z) (tab : string) :
  exists r, snd (update_tab ticker forecast_days tab) = Ok r.
Proof.
  destruct (get_stock_data ticker) as [df|] eqn:Hget.
  2:{ eexists. unfold update_tab, call_get_stock_data, tbind, ret.
      rewrite Hget. reflexivity. }
  destruct (empty df) eqn:Hne.
  { eexists. unfold update_tab, call_get_stock_data, tbind, ret.
    rewrite Hget, Hne. reflexivity. }
  destruct (forecast_stock df forecast_days) as [fc|] eqn:Hfc.
  2:{ eexists.
      unfold update_tab, call_get_stock_data, call_forecast_stock, tbind, ret.
      rewrite Hget, Hne, Hfc. reflexivity. }
  rewrite (@update_tab_success _ _ _ ticker forecast_days tab df fc Hget Hne Hfc).
  destruct (get_stock_data_columns _ Hget) as (date & close & Hd & Hc).
  unfold historical_figure, forecast_figure, bind. rewrite Hd, Hc.
  destruct (String.eqb tab "tab1"); [eexists; reflexivity|].
  destruct (String.eqb tab "tab2"); eexists; reflexivity.
Qed.

(** The historical view does not depend on the horizon: two triggers on the
    same ticker whose forecasts both succeed show the same chart. *)
Theorem update_tab_historical_ignores_horizon
    (ticker : string) (days days' : Z) (df : frame) (fc fc' : forecast_frame) :
  get_stock_data ticker = Some df ->
  empty df = false ->
  forecast_stock df days = Some fc ->
  forecast_stock df days' = Some fc' ->
  snd (update_tab ticker days "tab1") = snd (update_tab ticker days' "tab1").
Proof.
  intros Hget Hne Hfc Hfc'.
  rewrite (@update_tab_success _ _ _ ticker days "tab1" df fc Hget Hne Hfc).
  rewrite (@update_tab_success _ _ _ ticker days' "tab1" df fc' Hget Hne Hfc').
  reflexivity.
Qed.

(** The label shown in the chart title: every ticker of the dropdown gets
    its own label back, and a ticker that is not in the dropdown is shown as
    itself. *)
Theorem label_of_catalog :
  (forall o, In o stock_options -> label_of (snd o) = fst o) /\
  (forall ticker,
     (forall o, In o stock_options -> snd o <> ticker) ->
     label_of ticker = ticker).
Proof.
  split.
  - intros o Hin. unfold stock_options in Hin. simpl in Hin.
    repeat (destruct Hin as [<- | Hin]; [reflexivity|]). destruct Hin.
  - intros ticker Hnot. unfold label_of.
    destruct (find _ stock_options) as [o|] eqn:Hfind; [|reflexivity].
    apply find_some in Hfind. destruct Hfind as [Hin Heq].
    apply String.eqb_eq in Heq. exfalso. now apply (Hnot o).
Qed.

End CallbackPaths.

(* ------------------------------------------------------------------ *)
(** * The properties on the sample instance *)

Section Examples.
Import Sample.
#[local] Existing Instance pandas.
#[local] Existing Instance yfinance.
#[local] Existing Instance prophet.

Lemma get_stock_data_aapl : get_stock_data "AAPL" = Some history.
Proof. reflexivity. Qed.

Lemma week_is_strictly_increasing : StronglySorted Z.lt week_ts.
Proof.
  unfold week_ts.
  repeat (constructor; [|repeat (constructor; [reflexivity|]); constructor]).
  constructor.
Qed.

Lemma week_is_a_price_series : price_series history week_ts week_prices.
Proof.
  unfold price_series.
  split; [reflexivity|]. split; [reflexivity|]. split; [reflexivity|].
  exact week_is_strictly_increasing.
Qed.

(** An empty table is a possible result: both columns are there, without a
    row. *)
Lemma get_stock_data_may_be_empty :
  exists df, get_stock_data "TSLA" = Some df /\ empty df = true /\
             getitem df "Date" = Ok [] /\ getitem df "Close" = Ok [].
Proof. eexists. repeat split; reflexivity. Qed.

(** C1 on a ticker whose table arrives empty and on one whose prices are all
    unparseable. *)
Lemma update_tab_no_data_witness :
  no_usable_data "" /\
  no_usable_data "TSLA" /\
  snd (update_tab "" 30 "tab2")
    = Ok (Some (Div no_data_message message_style)) /\
  snd (update_tab "TSLA" 30 "tab2")
    = Ok (Some (Div no_data_message message_style)).
Proof.
  assert (Hempty : no_usable_data "") by (left; reflexivity).
  assert (Hdropped : no_usable_data "TSLA")
    by (right; eexists; split; reflexivity).
  split; [exact Hempty|]. split; [exact Hdropped|]. split.
  - exact (proj1 (@update_tab_no_data pandas yfinance prophet
                    "" 30%Z "tab2" Hempty)).
  - exact (proj1 (@update_tab_no_data pandas yfinance prophet
                    "TSLA" 30%Z "tab2" Hdropped)).
Defined.

(** C2 as stated fails: with a horizon of zero the week's table is
    forecast, one row per training date, instead of being refused. *)
Lemma forecast_stock_accepts_zero_horizon :
  (0 <= 0)%Z /\
  forecast_stock history 0 = Some (predicted_rows week_model week_ts) /\
  forecast_stock history 0 <> None.
Proof.
  split; [apply Z.le_refl|]. split; [reflexivity | discriminate].
Qed.

Lemma forecast_stock_nonpositive_horizon_witness :
  (0 <= 0)%Z /\
  prepare_model_df history = Ok (typed_rows (combine week_ts week_prices)) /\
  fit true (typed_rows (combine week_ts week_prices)) = Ok week_model /\
  forecast_stock history 0 = Some (predicted_rows week_model week_ts).
Proof.
  split; [apply Z.le_refl|]. split; [reflexivity|]. split; [reflexivity|].
  exact (proj1 (@forecast_stock_nonpositive_horizon pandas prophet
                  history 0%Z (typed_rows (combine week_ts week_prices))
                  week_model (Z.le_refl 0) eq_refl eq_refl)).
Defined.



(** C4 as stated fails: the week ends on a Friday, and the day forecast
    after it is the Saturday, not the next trading day. *)
Lemma forecast_stock_dates_fall_on_weekends :
  forecast_stock history 1 = Some forecast_1 /\
  skipn 5 (map ds forecast_1) = [saturday] /\
  is_trading_day saturday = false /\
  trading_days_after friday 1 = [(friday + 3 * day_ns)%Z] /\
  skipn 5 (map ds forecast_1) <> trading_days_after friday 1.
Proof.
  repeat split; try reflexivity. discriminate.
Qed.

Lemma forecast_stock_extends_by_calendar_days_witness :
  price_series history week_ts week_prices /\
  (1 <= 1)%Z /\
  forecast_stock history 1 = Some forecast_1 /\
  List.length forecast_1 = 6%nat /\
  firstn 5 (map ds forecast_1) = week_ts /\
  skipn 5 (map ds forecast_1) = [saturday].
Proof.
  split; [exact week_is_a_price_series|].
  split; [apply Z.le_refl|]. split; [reflexivity|].
  destruct (@forecast_stock_extends_by_calendar_days pandas prophet
              history week_ts week_prices 1%Z forecast_1
              week_is_a_price_series (Z.le_refl 1) eq_refl)
    as (Hlen & Hfirst & Hadded & _).
  split; [exact Hlen|]. split; [exact Hfirst | exact Hadded].
Defined.


Lemma get_stock_data_contains_failures_witness :
  download "TM" "5y" "1d" true
    = Raise (ProviderError "connection reset by peer") /\
  get_stock_data "TM" = None /\
  download "" "5y" "1d" true = Ok empty_table /\
  p_empty empty_table = true /\
  get_stock_data "" = None.
Proof.
  split; [reflexivity|].
  split.
  { exact (proj1 (@get_stock_data_contains_failures pandas yfinance "TM")
             _ eq_refl). }
  split; [reflexivity|]. split; [reflexivity|].
  exact (proj1 (proj2 (@get_stock_data_contains_failures pandas yfinance ""))
           empty_table eq_refl eq_refl).
Defined.

Lemma update_tab_traces_witness :
  get_stock_data "AAPL" = Some history /\
  empty history = false /\
  forecast_stock history 30 = Some forecast_30 /\
  (exists fig,
     snd (update_tab "AAPL" 30 "tab1") = Ok (Some (Graph fig)) /\
     List.length (data fig) = 1%nat) /\
  (exists fig,
     snd (update_tab "AAPL" 30 "tab2") = Ok (Some (Graph fig)) /\
     List.length (data fig) = 3%nat).
Proof.
  split; [reflexivity|]. split; [reflexivity|]. split; [reflexivity|].
  split.
  - destruct (@update_tab_traces pandas yfinance prophet
                "AAPL" 30%Z "tab1" history forecast_30
                eq_refl eq_refl eq_refl)
      as (date & close & _ & _ & Hhist & _).
    destruct (Hhist eq_refl) as (fig & Hfig & Hdata).
    exists fig. split; [exact Hfig|]. rewrite Hdata. reflexivity.
  - destruct (@update_tab_traces pandas yfinance prophet
                "AAPL" 30%Z "tab2" history forecast_30
                eq_refl eq_refl eq_refl)
      as (date & close & _ & _ & _ & Hfore).
    destruct (Hfore eq_refl) as (fig & Hfig & Hdata).
    exists fig. split; [exact Hfig|]. rewrite Hdata. reflexivity.
Defined.

(** C8 as stated fails: on a ticker without data the forecast stage is not
    called at all. *)
Lemma update_tab_skips_forecast_without_data :
  fst (update_tab "" 30 "tab2") = [Called_get_stock_data ""] /\
  forall df periods,
    ~ In (Called_forecast_stock df periods) (fst (update_tab "" 30 "tab2")).
Proof.
  split; [reflexivity|].
  intros df periods [Hin | []]. discriminate Hin.
Qed.

Lemma update_tab_runs_stages_for_every_tab_witness :
  get_stock_data "AAPL" = Some history /\
  empty history = false /\
  fst (update_tab "AAPL" 30 "tab1") = fst (update_tab "AAPL" 30 "tab2") /\
  fst (update_tab "AAPL" 30 "tab2")
    = [Called_get_stock_data "AAPL"; Called_forecast_stock history 30].
Proof.
  split; [reflexivity|]. split; [reflexivity|].
  destruct (@update_tab_runs_stages_for_every_tab pandas yfinance prophet
              "AAPL" 30%Z "tab2")
    as (_ & Hsame & Hboth).
  split; [exact (Hsame "tab1") | exact (Hboth history eq_refl eq_refl)].
Defined.

Lemma get_stock_data_date_close_present_witness :
  get_stock_data "AAPL" = Some history /\
  mem "Date" (names history) = true /\
  mem "Close" (names history) = true.
Proof.
  split; [reflexivity|].
  destruct (@get_stock_data_date_close_present pandas yfinance
              "AAPL" history eq_refl)
    as (Hdate & Hclose & _).
  split; [exact Hdate | exact Hclose].
Defined.

End Examples.

(* ------------------------------------------------------------------ *)
(** * The further properties on the sample instance *)

Section FurtherExamples.
Import Sample Shapes.
#[local] Existing Instance pandas.
#[local] Existing Instance prophet.

Lemma get_stock_data_dated_prices_witness :
  @get_stock_data pandas yfinance "AAPL" = Some history /\
  exists (ts : list Z) (vs : list Z),
    getitem history "Date" = Ok (map at_time ts) /\
    getitem history "Close" = Ok (map cents vs) /\
    List.length ts = List.length vs.
Proof.
  split; [reflexivity|].
  exact (@get_stock_data_dated_prices pandas yfinance "AAPL" history eq_refl).
Defined.

Lemma get_stock_data_named_index_witness :
  @download pandas yfinance "AAPL" "5y" "1d" true = Ok aapl_table /\
  price_label (names (flatten_columns aapl_table)) = Some "Close_AAPL" /\
  exists df,
    @get_stock_data pandas yfinance "AAPL" = Some df /\
    getitem df "Date" = Ok week /\
    getitem df "Close" = Ok closes.
Proof.
  split; [reflexivity|]. split; [reflexivity|].
  exact (@get_stock_data_named_index pandas yfinance
           "AAPL" aapl_table "Date" "Close_AAPL" closes
           eq_refl eq_refl eq_refl (or_introl eq_refl)
           eq_refl eq_refl eq_refl eq_refl).
Defined.

Lemma get_stock_data_unnamed_index_witness :
  @download pandas provider "ROWS" "5y" "1d" true = Ok unnamed_table /\
  exists df,
    @get_stock_data pandas provider "ROWS" = Some df /\
    getitem df "Date" = Ok (map at_time [0; 1]%Z) /\
    getitem df "Close" = Ok (map cents [18564; 18425]%Z).
Proof.
  split; [reflexivity|].
  exact (@get_stock_data_unnamed_index pandas provider
           "ROWS" unnamed_table "Close" (map cents [18564; 18425]%Z)
           eq_refl eq_refl eq_refl eq_refl eq_refl eq_refl eq_refl eq_refl).
Defined.

Lemma get_stock_data_index_label_clash_witness :
  @download pandas provider "CLASH" "5y" "1d" true = Ok clash_table /\
  p_empty clash_table = false /\
  @get_stock_data pandas provider "CLASH" = None.
Proof.
  split; [reflexivity|]. split; [reflexivity|].
  exact (@get_stock_data_index_label_clash pandas provider
           "CLASH" clash_table "Date" eq_refl eq_refl eq_refl).
Defined.

Lemma get_stock_data_no_close_column_witness :
  @download pandas provider "OPEN" "5y" "1d" true = Ok open_table /\
  p_empty open_table = false /\
  @get_stock_data pandas provider "OPEN" = None.
Proof.
  split; [reflexivity|]. split; [reflexivity|].
  apply (@get_stock_data_no_close_column pandas provider "OPEN" open_table
           eq_refl).
  - intros l [<- | [<- | []]]; reflexivity.
  - intros n [= <-]. reflexivity.
Defined.

Lemma forecast_stock_trains_on_fetched_rows_witness :
  @get_stock_data pandas yfinance "GLD" = Some gld_coerced /\
  prepare_model_df gld_coerced = Ok gld_rows /\
  List.length gld_rows = 3%nat.
Proof.
  split; [reflexivity|].
  destruct (@forecast_stock_trains_on_fetched_rows pandas yfinance
              "GLD" gld_coerced
              (map at_time [tuesday; monday; monday])
              (map cents [18790; 18801; 18801]%Z)
              eq_refl eq_refl eq_refl)
    as (Hrows & Hlen & _).
  split; [exact Hrows | exact Hlen].
Defined.

Lemma forecast_stock_missing_column_witness :
  mem "Close" (names dates_only) = false /\
  forecast_stock dates_only 30 = None.
Proof.
  split; [reflexivity|].
  exact (@forecast_stock_missing_column pandas prophet dates_only 30%Z
           (or_intror eq_refl)).
Defined.

Lemma forecast_stock_too_short_witness :
  getitem single_day "Date" = Ok (map at_time [monday]) /\
  getitem single_day "Close" = Ok (map cents [18564]%Z) /\
  forecast_stock single_day 30 = None.
Proof.
  split; [reflexivity|]. split; [reflexivity|].
  exact (@forecast_stock_too_short pandas prophet single_day 30%Z
           (map at_time [monday]) (map cents [18564]%Z)
           eq_refl eq_refl (or_introl (Nat.lt_succ_diag_r 1))).
Defined.

(** Three rows, two distinct days, a horizon of one day: three forecast
    rows, dated Monday, Tuesday and Wednesday. *)
Lemma forecast_stock_dates_witness :
  (0 <= 1)%Z /\
  prepare_model_df gld_coerced = Ok gld_rows /\
  fit true gld_rows = Ok gld_model /\
  (last (history_dates gld_model) 0 + 1 * day_ns <= Timestamp_max)%Z /\
  forecast_stock gld_coerced 1
    = Some (predicted_rows gld_model [monday; tuesday; wednesday]) /\
  List.length (predicted_rows gld_model [monday; tuesday; wednesday]) = 3%nat.
Proof.
  assert (Hmax : (last (history_dates gld_model) 0 + 1 * day_ns
                  <= Timestamp_max)%Z) by discriminate.
  split; [discriminate|]. split; [reflexivity|]. split; [reflexivity|].
  split; [exact Hmax|].
  destruct (@forecast_stock_dates pandas prophet gld_coerced 1%Z gld_rows
              gld_model (Z.le_0_1) eq_refl eq_refl Hmax)
    as (Hfc & _ & _ & _ & Hlen).
  split; [exact Hfc | exact Hlen].
Defined.

(** The dates of the week, thirty days on, are far from the last
    timestamp. *)
Lemma week_within_timestamps (rows : list (cell * cell)) (t : Z) :
  prepare_model_df history = Ok rows ->
  In (CTime t) (map fst rows) ->
  (t + Z.max 1 30 * day_ns <= Timestamp_max)%Z.
Proof.
  intros Hrows Hin.
  change (Ok (typed_rows (combine week_ts week_prices)) = Ok rows) in Hrows.
  injection Hrows as <-.
  cbn [map fst In] in Hin.
  repeat (destruct Hin as [[= <-] | Hin]; [discriminate|]). destruct Hin.
Qed.

(** One table, horizons of one day and of thirty: both forecast. *)
Lemma forecast_stock_success_ignores_horizon_witness :
  (0 <= 1)%Z /\ (0 <= 30)%Z /\
  forecast_stock history 1 = Some forecast_1 /\
  forecast_stock history 30 = Some forecast_30 /\
  (forecast_stock history 1 = None <-> forecast_stock history 30 = None).
Proof.
  split; [discriminate|]. split; [discriminate|].
  split; [reflexivity|]. split; [reflexivity|].
  exact (@forecast_stock_success_ignores_horizon pandas prophet
           history 1%Z 30%Z Z.le_0_1 ltac:(discriminate)
           week_within_timestamps).
Defined.

(** The week forecast 90000 days ahead would end in the year 2270. *)
Lemma forecast_stock_horizon_overflow_witness :
  (1 <= 90000)%Z /\
  prepare_model_df history = Ok (typed_rows (combine week_ts week_prices)) /\
  fit true (typed_rows (combine week_ts week_prices)) = Ok week_model /\
  (Timestamp_max < last (history_dates week_model) 0 + 90000 * day_ns)%Z /\
  forecast_stock history 90000 = None.
Proof.
  split; [discriminate|]. split; [reflexivity|]. split; [reflexivity|].
  split; [reflexivity|].
  exact (@forecast_stock_horizon_overflow pandas prophet
           history 90000%Z (typed_rows (combine week_ts week_prices))
           week_model ltac:(discriminate) eq_refl eq_refl eq_refl).
Defined.

Lemma update_tab_forecast_failed_witness :
  @get_stock_data pandas yfinance "AAPL" = Some history /\
  forecast_stock history (-5) = None /\
  @update_tab pandas yfinance prophet "AAPL" (-5) "tab1" =
    ([Called_get_stock_data "AAPL"; Called_forecast_stock history (-5)],
     Ok (Some (Div forecast_failed_message message_style))).
Proof.
  split; [reflexivity|]. split; [reflexivity|].
  exact (@update_tab_forecast_failed pandas yfinance prophet
           "AAPL" (-5)%Z "tab1" history eq_refl eq_refl eq_refl).
Defined.

Lemma update_tab_other_tab_witness :
  String.eqb "tab3" "tab1" = false /\
  String.eqb "tab3" "tab2" = false /\
  snd (@update_tab pandas yfinance prophet "AAPL" 30 "tab3") = Ok None.
Proof.
  split; [reflexivity|]. split; [reflexivity|].
  exact (@update_tab_other_tab pandas yfinance prophet
           "AAPL" 30%Z "tab3" history forecast_30
           eq_refl eq_refl eq_refl eq_refl eq_refl).
Defined.

Lemma update_tab_historical_ignores_horizon_witness :
  forecast_stock history 1 = Some forecast_1 /\
  forecast_stock history 30 = Some forecast_30 /\
  snd (@update_tab pandas yfinance prophet "AAPL" 1 "tab1")
  = snd (@update_tab pandas yfinance prophet "AAPL" 30 "tab1").
Proof.
  split; [reflexivity|]. split; [reflexivity|].
  exact (@update_tab_historical_ignores_horizon pandas yfinance prophet
           "AAPL" 1%Z 30%Z history forecast_1 forecast_30
           eq_refl eq_refl eq_refl eq_refl).
Defined.

End FurtherExamples.
